(** * Storage proofs for MiniMe tokens: key selection and slot discovery

    A shallow embedding of [token/erc20/erc20token.go] and
    [token/minime/minime.go].  The remote node and the token contract are a
    record of answers ([ERC20Token]); a Go [error] is its message; the
    [(value, error)] return pairs are a [result]; Go's [int] is a [Z] with the
    64-bit wrap-around written out; [*big.Int] is a [Z], [*big.Rat] a [Q] and
    [[]byte] a [list byte]. *)

From Stdlib Require Import ZArith QArith List String Ascii Bool Lia.
From Stdlib Require Import Strings.Byte.
Import ListNotations.
Open Scope Z_scope.

(** ** Go values *)

Module Go.

(** A Go [error], identified with the text returned by [err.Error()]. *)
Definition error := string.

Inductive result (A : Type) : Type :=
| Ok (a : A)
| Err (e : error).
Arguments Ok {A} a.
Arguments Err {A} e.

Definition bind {A B} (r : result A) (k : A -> result B) : result B :=
  match r with
  | Ok a => k a
  | Err e => Err e
  end.

(** [fmt.Errorf(prefix + "%w", err)] on the error branch of a call. *)
Definition wrapErr {A} (prefix : string) (r : result A) : result A :=
  match r with
  | Ok a => Ok a
  | Err e => Err (prefix ++ e)%string
  end.

(** Conversion of an integer to Go's 64-bit [int] (two's complement). *)
Definition Int (z : Z) : Z := (z + 2 ^ 63) mod 2 ^ 64 - 2 ^ 63.

(** [big.Int.Uint64]: the low 64 bits of the magnitude. *)
Definition Uint64 (x : Z) : Z := Z.abs x mod 2 ^ 64.

Definition byteZ (b : byte) : Z := Z.of_N (Byte.to_N b).

Definition Zbyte (z : Z) : byte :=
  match Byte.of_N (Z.to_N (z mod 256)) with
  | Some b => b
  | None => x00
  end.

(** [big.Int.SetBytes]: a big-endian unsigned integer. *)
Definition SetBytes (bs : list byte) : Z :=
  fold_left (fun acc b => acc * 256 + byteZ b) bs 0.

(** [common.TrimLeftZeroes]. *)
Fixpoint TrimLeftZeroes (bs : list byte) : list byte :=
  match bs with
  | x00 :: tl => TrimLeftZeroes tl
  | _ => bs
  end.

(** The [n] low-order base-256 digits of [v], most significant first. *)
Fixpoint be_bytes (n : nat) (v : Z) : list byte :=
  match n with
  | O => []
  | S n' => (be_bytes n' (v / 256) ++ [Zbyte v])%list
  end.

(** Number of base-256 digits of a non-negative integer. *)
Definition byteLen (v : Z) : nat :=
  if v =? 0 then O else Z.to_nat (Z.log2 v / 8 + 1).

(** [big.Int.Bytes]: the magnitude, big-endian, without leading zeros. *)
Definition Bytes (v : Z) : list byte := be_bytes (byteLen (Z.abs v)) (Z.abs v).

(** [common.BytesToHash]: crop from the left to 32 bytes, then left-pad. *)
Definition BytesToHash (b : list byte) : list byte :=
  let b' := skipn (List.length b - 32) b in
  (repeat x00 (32 - List.length b') ++ b')%list.

(** [strings.HasPrefix] and [strings.Contains]. *)
Fixpoint HasPrefix (s p : string) : bool :=
  match p, s with
  | EmptyString, _ => true
  | String c p', String d s' => Ascii.eqb c d && HasPrefix s' p'
  | String _ _, EmptyString => false
  end.

Fixpoint Contains (s sub : string) : bool :=
  HasPrefix s sub ||
  match s with
  | EmptyString => false
  | String _ s' => Contains s' sub
  end.

End Go.
Import Go.

Notation "x <- r ;; k" := (bind r (fun x => k))
  (at level 61, r at next level, right associativity).
Notation "' p <- r ;; k" := (bind r (fun x => match x with p => k end))
  (at level 61, p pattern, r at next level, right associativity).

(** ** Shared types and the helpers outside the two embedded files *)

(** [common.Address] (20 bytes) and [common.Hash] (32 bytes). *)
Definition Address := list byte.
Definition Hash := list byte.

(** The functions of the packages [helpers] and [minime] that the two files
    call and that are defined elsewhere in the repository.  They are pure; the
    development is parametric in them.
    - [GetMapSlot holder slotIndex]: the mapping base slot of a holder;
    - [HashFromPosition slot]: the hash of a slot, base of the array entries;
    - [BalanceToRat b decimals]: a raw balance as a rational;
    - [ParseMinimeValue word decimals]: the decoded checkpoint word, as
      (balance, raw balance, block number). *)
Class Helpers := {
  GetMapSlot : Address -> Z -> Hash;
  HashFromPosition : Hash -> Hash;
  BalanceToRat : Z -> Z -> Q;
  ParseMinimeValue : list byte -> Z -> Q * Z * Z
}.

(** ** token/erc20/erc20token.go *)

Module erc20.

Record TokenData := {
  Address_ : Address;
  Name : string;
  Symbol : string;
  Decimals : Z;
  TotalSupply : Z
}.

(** What [BlockByNumber] is used for: the state root and the header number. *)
Record BlockData := { Root : Hash; Number : Z }.

Record StorageResult := {
  Key : list byte;
  Value : Z;
  Proof : list (list byte)
}.

Record StorageProof := {
  StateRoot : Hash;
  Height : Z;
  StorageProofs : list StorageResult
}.

(** [ERC20Token]: the answers of the contract binding ([token]), of the
    Ethereum client ([EthCli]) and of the RPC client ([RPCCli]).  A block
    selector is [None] for Go's [nil] (the latest block). *)
Record ERC20Token := {
  TokenAddr : Address;
  token_Name : result string;
  token_Symbol : result string;
  token_Decimals : result Z;
  token_TotalSupply : result Z;
  token_BalanceOf : Address -> result Z;
  EthCli_StorageAt : Address -> Hash -> option Z -> result (list byte);
  EthCli_BlockByNumber : option Z -> result BlockData;
  RPCCli_eth_getProof : Address -> list (list byte) -> option Z -> result StorageProof
}.

Definition TokenName (w : ERC20Token) : result string := token_Name w.
Definition TokenSymbol (w : ERC20Token) : result string := token_Symbol w.
Definition TokenDecimals (w : ERC20Token) : result Z := token_Decimals w.
Definition TokenTotalSupply (w : ERC20Token) : result Z := token_TotalSupply w.

(** The decode-of-empty-result marker looked for in a failure's text. *)
Definition emptyMarker : string := "unmarshal an empty string".

Definition GetTokenData (w : ERC20Token) : result TokenData :=
  name <-
    match TokenName w with
    | Ok n => Ok n
    | Err e =>
        if Contains e emptyMarker then Ok "unknown-name"%string
        else Err ("unable to get token name data: " ++ e)%string
    end ;;
  symbol <-
    match TokenSymbol w with
    | Ok s => Ok s
    | Err e =>
        if Contains e emptyMarker then Ok "unknown-symbol"%string
        else Err ("unable to get token symbol data: " ++ e)%string
    end ;;
  decimals <- wrapErr "unable to get token decimals data: " (TokenDecimals w) ;;
  supply <- wrapErr "unable to get token supply data: " (TokenTotalSupply w) ;;
  Ok {| Address_ := TokenAddr w; Name := name; Symbol := symbol;
        Decimals := decimals; TotalSupply := supply |}.

Definition Balance `{Helpers} (w : ERC20Token) (address : Address) : result Q :=
  b <- token_BalanceOf w address ;;
  decimals <- TokenDecimals w ;;
  Ok (BalanceToRat b decimals).

Definition GetProof (w : ERC20Token) (keys : list (list byte)) (block : option Z)
  : result StorageProof :=
  blockData <- EthCli_BlockByNumber w block ;;
  resp <- RPCCli_eth_getProof w (TokenAddr w) keys block ;;
  Ok {| StateRoot := Root blockData; Height := Number blockData;
        StorageProofs := StorageProofs resp |}.

End erc20.

(** ** token/minime/minime.go *)

Module minime.

Definition ErrSlotNotFound : error := "storage slot not found"%string.

Definition maxIterationsForDiscover : Z := 20.

Record Minime := { erc20_ : erc20.ERC20Token }.

Section Engine.
Context `{Helpers}.
Variable m : Minime.

(** The key of the array entry at a 1-based [position]:
    [common.BytesToHash(v.Bytes())] for [v = SetBytes(vf) + int64(position-1)]. *)
Definition arraySlot (holder : Address) (mapIndexSlot position : Z) : Hash :=
  let mapSlot := GetMapSlot holder mapIndexSlot in
  let vf := HashFromPosition mapSlot in
  let offset := Int (position - 1) in
  let v := SetBytes vf + offset in
  BytesToHash (Bytes v).

Definition getMinimeAtPosition (holder : Address) (mapIndexSlot position : Z)
    (block : option Z) : result (Q * Z * Hash) :=
  token <- erc20.GetTokenData (erc20_ m) ;;
  let contractAddr := erc20.TokenAddr (erc20_ m) in
  let slot := arraySlot holder mapIndexSlot position in
  value <- erc20.EthCli_StorageAt (erc20_ m) contractAddr slot block ;;
  let '(balance, _, mblock) := ParseMinimeValue value (erc20.Decimals token) in
  Ok (balance, mblock, slot).

Definition getMinimeArraySize (holder : Address) (islot : Z) : result Z :=
  let mapSlot := GetMapSlot holder islot in
  let addr := erc20.TokenAddr (erc20_ m) in
  value <- erc20.EthCli_StorageAt (erc20_ m) addr mapSlot None ;;
  Ok (Int (Uint64 (SetBytes (TrimLeftZeroes value)))).

(** The body of the discovery loop, from candidate
    [i = maxIterationsForDiscover - k] on, with [k] iterations left.  The
    loop leaves with the variables [(index, amount)], or is left by the
    [return] on a failed length read. *)
Fixpoint discoverLoop (holder : Address) (balance : Q) (amount : option Q)
    (k : nat) : result (Z * option Q) :=
  match k with
  | O => Ok (-1, amount)
  | S k' =>
      let i := maxIterationsForDiscover - Z.of_nat k in
      checkPointsSize <- getMinimeArraySize holder i ;;
      if checkPointsSize <=? 0 then discoverLoop holder balance amount k'
      else
        match getMinimeAtPosition holder i checkPointsSize None with
        | Err _ => discoverLoop holder balance None k'
        | Ok (amount', block, _) =>
            if Uint64 block =? 0 then discoverLoop holder balance (Some amount') k'
            else
              match (amount' ?= balance)%Q with
              | Eq => Ok (i, Some amount')
              | _ => discoverLoop holder balance (Some amount') k'
              end
        end
  end.

(** How [DiscoverSlot] returns once the loop is done: the [return] inside
    the loop on a failed length read, and the statements after the loop. *)
Definition discoverReturn (r : result (Z * option Q)) : Z * option Q * option error :=
  match r with
  | Err e => (0, None, Some e)
  | Ok (index, amount) =>
      if index =? -1 then (index, None, Some ErrSlotNotFound)
      else (index, amount, None)
  end.

(** [DiscoverSlot] returns the triple [(index, amount, err)]. *)
Definition DiscoverSlot (holder : Address) : Z * option Q * option error :=
  match erc20.Balance (erc20_ m) holder with
  | Err e => (-1, None, Some e)
  | Ok balance =>
      discoverReturn
        (discoverLoop holder balance None (Z.to_nat maxIterationsForDiscover))
  end.

(** The backward scan of [GetProof]: the iterations [i = n, n-1, ..., 1] of
    [for i := checkPointsSize - 1; i > 0; i--].  [Ok []] is the loop left
    with [keys] still empty. *)
Fixpoint scanCheckpoints (holder : Address) (block islot : Z) (n : nat)
  : result (list (list byte)) :=
  match n with
  | O => Ok []
  | S n' =>
      let i := Z.of_nat n in
      '(_, checkpointBlock, prevSlot) <-
        wrapErr "cannot get minime: "
          (getMinimeAtPosition holder islot (i - 1) (Some block)) ;;
      if Uint64 block <=? Uint64 checkpointBlock then
        '(balance, block', currSlot) <-
          getMinimeAtPosition holder islot i (Some block) ;;
        match (balance ?= 0 # 1)%Q with
        | Gt => Err "proof of nil has a balance value"%string
        | _ =>
            if 0 <? Uint64 block' then Err "proof of nil has a block value"%string
            else Ok [prevSlot; currSlot]
        end
      else scanCheckpoints holder block islot n'
  end.

(** Lines 94-142 of [GetProof]: the selection of the two keys. *)
Definition GetProof_keys (holder : Address) (block islot : Z)
  : result (list (list byte)) :=
  checkPointsSize <-
    wrapErr "cannot fetch minime array size: " (getMinimeArraySize holder islot) ;;
  '(_, mblock, slot) <-
    wrapErr "cannot get minime: "
      (getMinimeAtPosition holder islot checkPointsSize (Some block)) ;;
  keys <-
    (if Uint64 mblock <=? Uint64 block then
       '(_, _, slot2) <-
         getMinimeAtPosition holder islot (Int (checkPointsSize + 1)) (Some block) ;;
       Ok [slot; slot2]
     else Ok []) ;;
  keys <-
    (if (Z.of_nat (List.length keys) =? 0)
     then scanCheckpoints holder block islot (Z.to_nat (Int (checkPointsSize - 1)))
     else Ok keys) ;;
  if (Z.of_nat (List.length keys) =? 0) then Err "checkpoint not found"%string
  else Ok keys.

(** [GetProof], for a target block that is not [nil] (the function
    dereferences it): the selected keys are handed to [erc20.GetProof]. *)
Definition GetProof (holder : Address) (block islot : Z)
  : result erc20.StorageProof :=
  keys <- GetProof_keys holder block islot ;;
  erc20.GetProof (erc20_ m) keys (Some block).

End Engine.
End minime.

(** ** Keccak-256 and the helpers of the storage layout *)

Module Keccak.

Definition mask64 : Z := 2 ^ 64 - 1.

Definition rotl (x n : Z) : Z :=
  Z.land (Z.lor (Z.shiftl x n) (Z.shiftr x (64 - n))) mask64.

Definition lane (A : list Z) (i : nat) : Z := nth i A 0.

Definition roundConstants : list Z :=
  [ 0x0000000000000001; 0x0000000000008082; 0x800000000000808A;
    0x8000000080008000; 0x000000000000808B; 0x0000000080000001;
    0x8000000080008081; 0x8000000000008009; 0x000000000000008A;
    0x0000000000000088; 0x0000000080008009; 0x000000008000000A;
    0x000000008000808B; 0x800000000000008B; 0x8000000000008089;
    0x8000000000008003; 0x8000000000008002; 0x8000000000000080;
    0x000000000000800A; 0x800000008000000A; 0x8000000080008081;
    0x8000000000008080; 0x0000000080000001; 0x8000000080008008 ].

(** For each lane of the state after rho and pi: the lane it comes from and
    its rotation. *)
Definition rhoPi : list (nat * nat) :=
  [ (0, 0); (6, 44); (12, 43); (18, 21); (24, 14);
    (3, 28); (9, 20); (10, 3); (16, 45); (22, 61);
    (1, 1); (7, 6); (13, 25); (19, 8); (20, 18);
    (4, 27); (5, 36); (11, 10); (17, 15); (23, 56);
    (2, 62); (8, 55); (14, 39); (15, 41); (21, 2) ]%nat.

Definition round (A : list Z) (rc : Z) : list Z :=
  let C := map (fun x =>
             Z.lxor (lane A x) (Z.lxor (lane A (x + 5)) (Z.lxor (lane A (x + 10))
               (Z.lxor (lane A (x + 15)) (lane A (x + 20)))))) (seq 0 5) in
  let D := map (fun x =>
             Z.lxor (lane C ((x + 4) mod 5)) (rotl (lane C ((x + 1) mod 5)) 1))
             (seq 0 5) in
  let A1 := map (fun i => Z.lxor (lane A i) (lane D (i mod 5))) (seq 0 25) in
  let B := map (fun sr => rotl (lane A1 (fst sr)) (Z.of_nat (snd sr))) rhoPi in
  let A2 := map (fun i =>
              let y5 := (5 * (i / 5))%nat in
              let x := (i mod 5)%nat in
              Z.lxor (lane B i)
                (Z.land (Z.lxor (lane B ((x + 1) mod 5 + y5)) mask64)
                        (lane B ((x + 2) mod 5 + y5)))) (seq 0 25) in
  match A2 with
  | a0 :: tl => Z.lxor a0 rc :: tl
  | [] => []
  end.

Definition permute (A : list Z) : list Z := fold_left round roundConstants A.

Definition rate : nat := 136.

Definition pad (msg : list byte) : list byte :=
  let q := (rate - List.length msg mod rate)%nat in
  match q with
  | 1%nat => (msg ++ [x81])%list
  | _ => (msg ++ [x01] ++ repeat x00 (q - 2) ++ [x80])%list
  end.

Fixpoint chunks (n k : nat) (l : list byte) : list (list byte) :=
  match n with
  | O => []
  | S n' => firstn k l :: chunks n' k (skipn k l)
  end.

Definition laneOfBlock (blk : list byte) (i : nat) : Z :=
  SetBytes (rev (firstn 8 (skipn (8 * i) blk))).

Definition absorb (A : list Z) (blk : list byte) : list Z :=
  permute (map (fun i =>
                  if (i <? 17)%nat then Z.lxor (lane A i) (laneOfBlock blk i)
                  else lane A i) (seq 0 25)).

Definition keccak256 (msg : list byte) : list byte :=
  let p := pad msg in
  let A := fold_left absorb (chunks (List.length p / rate) rate p) (repeat 0 25) in
  flat_map (fun i => rev (be_bytes 8 (lane A i))) (seq 0 4).

End Keccak.

(** [common.LeftPadBytes]. *)
Definition LeftPadBytes (slice : list byte) (l : nat) : list byte :=
  if (l <=? List.length slice)%nat then slice
  else (repeat x00 (l - List.length slice) ++ slice)%list.

(** Modelled from the spec: the functions of [Helpers] are code of the
    repository outside the two embedded files; this instance follows the
    storage layout of the specification: the mapping base slot is the
    Keccak-256 hash of the holder and of the slot index, each left-padded to
    32 bytes; the array entries start at the hash of that slot; a balance is
    scaled by [10 ^ decimals]; a checkpoint word packs the balance in its 16
    high-order bytes and the block number in its 16 low-order bytes. *)
#[export] Instance layoutHelpers : Helpers := {
  GetMapSlot holder position :=
    Keccak.keccak256 (LeftPadBytes holder 32 ++ LeftPadBytes (Bytes (Int position)) 32)%list;
  HashFromPosition slot := Keccak.keccak256 slot;
  BalanceToRat b decimals := (b # Z.to_pos (10 ^ decimals))%Q;
  ParseMinimeValue value decimals :=
    let value := LeftPadBytes value 32 in
    let ibalance := SetBytes (firstn 16 value) in
    let mblock := SetBytes (skipn 16 value) in
    ((ibalance # Z.to_pos (10 ^ decimals))%Q, ibalance, mblock)
}.

(** ** A node answering from a table of storage words *)

Module Fixture.

Fixpoint bytes_eqb (a b : list byte) : bool :=
  match a, b with
  | [], [] => true
  | x :: a', y :: b' => Byte.eqb x y && bytes_eqb a' b'
  | _, _ => false
  end.

(** A checkpoint word: balance, then block number, 16 bytes each. *)
Definition checkpoint (balance blockNumber : Z) : list byte :=
  (be_bytes 16 balance ++ be_bytes 16 blockNumber)%list.

Definition zeroWord : list byte := repeat x00 32.

(** One storage cell: its key, and the word or the failure of the read. *)
Definition cells := list (Hash * result (list byte)).

Fixpoint readCell (t : cells) (key : Hash) : result (list byte) :=
  match t with
  | [] => Ok zeroWord
  | (k, r) :: t' => if bytes_eqb k key then r else readCell t' key
  end.

Definition holder0 : Address := be_bytes 20 0x00000000219ab540356cBB839Cbe05303d7705Fa.
Definition tokenAddr0 : Address := be_bytes 20 0x960b236A07cf122663c4303350609A66A7B288C0.

(** The mapping slot, and the entry slots, of [holder0] at a slot index. *)
Definition lengthKey (islot : Z) : Hash := GetMapSlot holder0 islot.
Definition entryKey (islot position : Z) : Hash :=
  minime.arraySlot holder0 islot position.

(** A token with 0 decimals whose storage is the table [t] at every block,
    and whose [balanceOf] answers [bal]. *)
Definition node (t : cells) (bal : result Z) : minime.Minime :=
  {| minime.erc20_ := {|
       erc20.TokenAddr := tokenAddr0;
       erc20.token_Name := Ok "Aragon Network Token"%string;
       erc20.token_Symbol := Ok "ANT"%string;
       erc20.token_Decimals := Ok 0;
       erc20.token_TotalSupply := Ok 1000000;
       erc20.token_BalanceOf := fun _ => bal;
       erc20.EthCli_StorageAt := fun _ key _ => readCell t key;
       erc20.EthCli_BlockByNumber := fun b =>
         Ok {| erc20.Root := zeroWord;
               erc20.Number := match b with Some n => n | None => 0 end |};
       erc20.RPCCli_eth_getProof := fun _ keys _ =>
         Ok {| erc20.StateRoot := [];
               erc20.Height := 0;
               erc20.StorageProofs :=
                 map (fun k => {| erc20.Key := k; erc20.Value := 0;
                                  erc20.Proof := [] |}) keys |}
     |} |}.

(** The storage cells of a checkpoint array at slot index [islot]: the
    length word, then the checkpoints at positions 1, 2, ... *)
Fixpoint entryCells (islot : Z) (position : Z) (cps : list (Z * Z)) : cells :=
  match cps with
  | [] => []
  | (balance, blockNumber) :: tl =>
      (entryKey islot position, Ok (checkpoint balance blockNumber))
      :: entryCells islot (position + 1) tl
  end.

Definition arrayCells (islot : Z) (cps : list (Z * Z)) : cells :=
  (lengthKey islot, Ok (be_bytes 32 (Z.of_nat (List.length cps))))
  :: entryCells islot 1 cps.

End Fixture.

(** ** Outcomes of the metadata calls *)

(** A name or symbol call that returned, or failed on an empty result. *)
Definition tolerated (r : result string) : Prop :=
  match r with
  | Ok _ => True
  | Err e => Contains e erc20.emptyMarker = true
  end.

Definition orPlaceholder (r : result string) (placeholder : string) : string :=
  match r with
  | Ok s => s
  | Err _ => placeholder
  end.

(** A token whose [name] and [symbol] calls return nothing to decode. *)
Definition namelessToken : erc20.ERC20Token :=
  {| erc20.TokenAddr := Fixture.tokenAddr0;
     erc20.token_Name :=
       Err "abi: attempting to unmarshal an empty string while arguments are expected"%string;
     erc20.token_Symbol :=
       Err "abi: attempting to unmarshal an empty string while arguments are expected"%string;
     erc20.token_Decimals := Ok 18;
     erc20.token_TotalSupply := Ok 1000000;
     erc20.token_BalanceOf := fun _ => Ok 0;
     erc20.EthCli_StorageAt := fun _ _ _ => Ok Fixture.zeroWord;
     erc20.EthCli_BlockByNumber := fun _ => Err "not used"%string;
     erc20.RPCCli_eth_getProof := fun _ _ _ => Err "not used"%string |}.

(** A token whose [name] call fails for another reason. *)
Definition brokenToken : erc20.ERC20Token :=
  {| erc20.TokenAddr := Fixture.tokenAddr0;
     erc20.token_Name := Err "execution reverted"%string;
     erc20.token_Symbol := Ok "ANT"%string;
     erc20.token_Decimals := Ok 18;
     erc20.token_TotalSupply := Ok 1000000;
     erc20.token_BalanceOf := fun _ => Ok 0;
     erc20.EthCli_StorageAt := fun _ _ _ => Ok Fixture.zeroWord;
     erc20.EthCli_BlockByNumber := fun _ => Err "not used"%string;
     erc20.RPCCli_eth_getProof := fun _ _ _ => Err "not used"%string |}.

(** ** Candidates of the discovery *)

Section Candidates.
Context `{Helpers} (m : minime.Minime).

(** The array-length read of candidate [i] returns. *)
Definition lengthReadable (holder : Address) (i : Z) : Prop :=
  exists size, minime.getMinimeArraySize m holder i = Ok size.

(** Candidate [i] has a positive length, its top entry is read with a block
    number whose [Uint64] is not 0, and the decoded balance [amount] equals
    [balance]. *)
Definition qualifies (holder : Address) (balance : Q) (i : Z) (amount : Q) : Prop :=
  exists size block slot,
    minime.getMinimeArraySize m holder i = Ok size /\ 0 < size /\
    minime.getMinimeAtPosition m holder i size None = Ok (amount, block, slot) /\
    Uint64 block <> 0 /\ (amount == balance)%Q.

(** The raw word at the array-length slot of candidate [i]. *)
Definition lengthWord (holder : Address) (i : Z) : result (list byte) :=
  erc20.EthCli_StorageAt (minime.erc20_ m) (erc20.TokenAddr (minime.erc20_ m))
    (GetMapSlot holder i) None.

End Candidates.

(** The check of [qualifies] as a function: the balance of the top entry of
    candidate [i] when it qualifies. *)
Definition topEntryMatch `{Helpers} (m : minime.Minime) (holder : Address)
    (balance : Q) (i : Z) : option Q :=
  match minime.getMinimeArraySize m holder i with
  | Ok size =>
      if 0 <? size then
        match minime.getMinimeAtPosition m holder i size None with
        | Ok (amount, block, _) =>
            if negb (Uint64 block =? 0) && Qeq_bool amount balance
            then Some amount else None
        | Err _ => None
        end
      else None
  | Err _ => None
  end.

(** ** Nodes used as concrete inputs *)

Module Nodes.
Import Fixture.

(** Four checkpoints at slot index 3; the current balance is the last one. *)
Definition fourCheckpoints : minime.Minime :=
  node (arrayCells 3 [(5, 70); (6, 80); (7, 90); (8, 100)]) (Ok 8).

(** No checkpoint array at all; the current balance is 8. *)
Definition noArray : minime.Minime := node [] (Ok 8).

(** The [balanceOf] call fails; the array is at slot index 3. *)
Definition balanceFails : minime.Minime :=
  node (arrayCells 3 [(8, 100)]) (Err "execution reverted"%string).

(** One checkpoint, at block 100, at slot index 3. *)
Definition oneCheckpoint : minime.Minime :=
  node (arrayCells 3 [(8, 100)]) (Ok 8).

(** The length word of candidate 0 cannot be read; the array is at slot
    index 1 and its last balance is the current balance. *)
Definition lengthUnreadable : minime.Minime :=
  node ((lengthKey 0, Err "connection reset"%string) :: arrayCells 1 [(8, 100)])
       (Ok 8).

(** The length word of candidate 2 cannot be read; the array is at slot
    index 5. *)
Definition lengthTimeout : minime.Minime :=
  node ((lengthKey 2, Err "request timed out"%string) :: arrayCells 5 [(3, 40)])
       (Ok 3).

(** Candidate 1 has a length word of 2 but its top entry cannot be read;
    the array is at slot index 4. *)
Definition entryUnreadable : minime.Minime :=
  node ((lengthKey 1, Ok (be_bytes 32 2))
        :: (entryKey 1 2, Err "missing trie node"%string)
        :: arrayCells 4 [(1, 10); (3, 40)])
       (Ok 3).

(** The length word of slot index 0 is [2 ^ 63]. *)
Definition hugeLength : minime.Minime :=
  node [(lengthKey 0, Ok (be_bytes 32 (2 ^ 63)))] (Ok 0).

(** One checkpoint at block 100; the word after it cannot be read. *)
Definition nextUnreadable : minime.Minime :=
  node (arrayCells 3 [(8, 100)] ++ [(entryKey 3 2, Err "connection reset"%string)])
       (Ok 8).

(** One checkpoint at block 100, followed by a word that is not empty. *)
Definition nextNotEmpty : minime.Minime :=
  node (arrayCells 3 [(8, 100)] ++ [(entryKey 3 2, Ok (checkpoint 5 200))]) (Ok 8).

(** Four checkpoints at slot index 3, and a word in the slot before the
    first entry that decodes with block number 95. *)
Definition wordBeforeArray : minime.Minime :=
  node ((entryKey 3 0, Ok (checkpoint 0 95))
        :: (lengthKey 3, Ok (be_bytes 32 4))
        :: (entryKey 3 1, Ok (checkpoint 0 0))
        :: entryCells 3 2 [(6, 80); (7, 90); (8, 100)])
       (Ok 8).

(** The four checkpoints as a node with history shows them: at block [n]
    the entries written after [n] are still empty; the length word, read at
    the latest block, is 4. *)
Definition fourCheckpointsHistory : minime.Minime :=
  let written (n : option Z) : list (Z * Z) :=
    match n with
    | None => [(5, 70); (6, 80); (7, 90); (8, 100)]
    | Some n => filter (fun cp => snd cp <=? n) [(5, 70); (6, 80); (7, 90); (8, 100)]
    end in
  let base := fourCheckpoints in
  {| minime.erc20_ := {|
       erc20.TokenAddr := erc20.TokenAddr (minime.erc20_ base);
       erc20.token_Name := erc20.token_Name (minime.erc20_ base);
       erc20.token_Symbol := erc20.token_Symbol (minime.erc20_ base);
       erc20.token_Decimals := erc20.token_Decimals (minime.erc20_ base);
       erc20.token_TotalSupply := erc20.token_TotalSupply (minime.erc20_ base);
       erc20.token_BalanceOf := erc20.token_BalanceOf (minime.erc20_ base);
       erc20.EthCli_StorageAt := fun _ key n =>
         readCell ((lengthKey 3, Ok (be_bytes 32 4)) :: entryCells 3 1 (written n)) key;
       erc20.EthCli_BlockByNumber := erc20.EthCli_BlockByNumber (minime.erc20_ base);
       erc20.RPCCli_eth_getProof := erc20.RPCCli_eth_getProof (minime.erc20_ base)
     |} |}.

End Nodes.

(** ** Nodes that agree on what the selection reads *)

(** Two nodes answer every storage read alike and report the same decimals
    (their other metadata calls return, or fail in a tolerated way). *)
Definition sameReads (m1 m2 : minime.Minime) : Prop :=
  erc20.TokenAddr (minime.erc20_ m1) = erc20.TokenAddr (minime.erc20_ m2)
  /\ (forall addr key block,
        erc20.EthCli_StorageAt (minime.erc20_ m1) addr key block
        = erc20.EthCli_StorageAt (minime.erc20_ m2) addr key block)
  /\ exists t1 t2,
       erc20.GetTokenData (minime.erc20_ m1) = Ok t1
       /\ erc20.GetTokenData (minime.erc20_ m2) = Ok t2
       /\ erc20.Decimals t1 = erc20.Decimals t2.

(** The entry at a position is read, at the target block, with a block
    number below the target. *)
Definition entryBelow `{Helpers} (m : minime.Minime) (holder : Address)
    (islot target position : Z) : Prop :=
  exists b cb s,
    minime.getMinimeAtPosition m holder islot position (Some target) = Ok (b, cb, s)
    /\ Uint64 cb < Uint64 target.

Module Variants.
Import Fixture.

(** The node [m] with other answers to the four metadata calls. *)
Definition withMetadata (m : minime.Minime) (name symbol : result string)
    (decimals supply : result Z) : minime.Minime :=
  let w := minime.erc20_ m in
  {| minime.erc20_ := {|
       erc20.TokenAddr := erc20.TokenAddr w;
       erc20.token_Name := name;
       erc20.token_Symbol := symbol;
       erc20.token_Decimals := decimals;
       erc20.token_TotalSupply := supply;
       erc20.token_BalanceOf := erc20.token_BalanceOf w;
       erc20.EthCli_StorageAt := erc20.EthCli_StorageAt w;
       erc20.EthCli_BlockByNumber := erc20.EthCli_BlockByNumber w;
       erc20.RPCCli_eth_getProof := erc20.RPCCli_eth_getProof w |} |}.

(** The node [m] with other answers to the block and proof requests. *)
Definition withProofs (m : minime.Minime)
    (blockByNumber : option Z -> result erc20.BlockData)
    (getProof : Address -> list (list byte) -> option Z -> result erc20.StorageProof)
  : minime.Minime :=
  let w := minime.erc20_ m in
  {| minime.erc20_ := {|
       erc20.TokenAddr := erc20.TokenAddr w;
       erc20.token_Name := erc20.token_Name w;
       erc20.token_Symbol := erc20.token_Symbol w;
       erc20.token_Decimals := erc20.token_Decimals w;
       erc20.token_TotalSupply := erc20.token_TotalSupply w;
       erc20.token_BalanceOf := erc20.token_BalanceOf w;
       erc20.EthCli_StorageAt := erc20.EthCli_StorageAt w;
       erc20.EthCli_BlockByNumber := blockByNumber;
       erc20.RPCCli_eth_getProof := getProof |} |}.

Definition reverted : error := "execution reverted"%string.
Definition emptyResult : error :=
  "abi: attempting to unmarshal an empty string while arguments are expected"%string.

(** One checkpoint at slot index 3; the [totalSupply] call fails. *)
Definition supplyFails : minime.Minime :=
  withMetadata Nodes.oneCheckpoint (Ok "Aragon Network Token"%string)
    (Ok "ANT"%string) (Ok 0) (Err reverted).

(** One checkpoint at slot index 3; the [decimals] call fails. *)
Definition decimalsFail : minime.Minime :=
  withMetadata Nodes.oneCheckpoint (Ok "Aragon Network Token"%string)
    (Ok "ANT"%string) (Err reverted) (Ok 1000000).

(** One checkpoint at slot index 3; the [symbol] call fails. *)
Definition symbolFails : minime.Minime :=
  withMetadata Nodes.oneCheckpoint (Err emptyResult) (Err reverted) (Ok 0)
    (Ok 1000000).

(** Four checkpoints at slot index 3, with no name and no symbol. *)
Definition fourCheckpointsNameless : minime.Minime :=
  withMetadata Nodes.fourCheckpoints (Err emptyResult) (Err emptyResult) (Ok 0)
    (Ok 7).

(** One checkpoint; the block header cannot be fetched. *)
Definition headerUnavailable : minime.Minime :=
  withProofs Nodes.oneCheckpoint (fun _ => Err "header not found"%string)
    (erc20.RPCCli_eth_getProof (minime.erc20_ Nodes.oneCheckpoint)).

(** One checkpoint; the node refuses the proof request. *)
Definition proofRefused : minime.Minime :=
  withProofs Nodes.oneCheckpoint
    (erc20.EthCli_BlockByNumber (minime.erc20_ Nodes.oneCheckpoint))
    (fun _ _ _ => Err "missing trie node"%string).

(** One checkpoint; the node answers the proof request with a state root
    and a height of its own. *)
Definition proofWithOwnRoot : minime.Minime :=
  withProofs Nodes.oneCheckpoint
    (fun b => Ok {| erc20.Root := be_bytes 32 0xabcd;
                    erc20.Number := match b with Some n => n | None => 999 end |})
    (fun _ keys _ =>
       Ok {| erc20.StateRoot := be_bytes 32 0x1234;
             erc20.Height := 42;
             erc20.StorageProofs :=
               map (fun k => {| erc20.Key := k; erc20.Value := 7;
                                erc20.Proof := [k] |}) keys |}).

(** Only the length word, 1, and a first entry after block 105. *)
Definition oneLateCheckpoint : minime.Minime :=
  node (arrayCells 3 [(8, 200)]) (Ok 8).

End Variants.

(** * Properties *)

Import minime.

(** ** Integers and bytes *)

Lemma Int_small (z : Z) : - 2 ^ 63 <= z < 2 ^ 63 -> Int z = z.
Proof.
  intros Hz. unfold Int.
  rewrite Z.mod_small by lia. lia.
Qed.

Lemma Int_range (z : Z) : - 2 ^ 63 <= Int z < 2 ^ 63.
Proof.
  unfold Int.
  pose proof (Z.mod_pos_bound (z + 2 ^ 63) (2 ^ 64) ltac:(lia)). lia.
Qed.

Lemma Uint64_small (z : Z) : 0 <= z < 2 ^ 64 -> Uint64 z = z.
Proof.
  intros Hz. unfold Uint64.
  rewrite Z.abs_eq by lia. apply Z.mod_small; lia.
Qed.

Lemma byteZ_range (b : byte) : 0 <= byteZ b < 256.
Proof.
  unfold byteZ. pose proof (Byte.to_N_bounded b). lia.
Qed.

Lemma byteZ_Zbyte (z : Z) : byteZ (Zbyte z) = z mod 256.
Proof.
  unfold Zbyte, byteZ.
  pose proof (Z.mod_pos_bound z 256 ltac:(lia)) as Hm.
  destruct (Byte.of_N (Z.to_N (z mod 256))) as [b|] eqn:E.
  - apply Byte.to_of_N in E. rewrite E. lia.
  - apply Byte.of_N_None_iff in E. lia.
Qed.

Lemma byteZ_zero_iff (b : byte) : byteZ b = 0 <-> b = x00.
Proof.
  split.
  - intros Hb. unfold byteZ in Hb.
    assert (Byte.to_N b = 0%N) as E by lia.
    pose proof (Byte.of_to_N b) as Hof. rewrite E in Hof.
    simpl in Hof. congruence.
  - intros ->. reflexivity.
Qed.

Lemma SetBytes_fold (bs : list byte) (a : Z) :
  fold_left (fun acc b => acc * 256 + byteZ b) bs a
  = a * 256 ^ Z.of_nat (List.length bs) + SetBytes bs.
Proof.
  unfold SetBytes. revert a.
  induction bs as [|b bs IH]; intros a.
  - simpl. lia.
  - cbn [fold_left List.length].
    rewrite IH. rewrite (IH (0 * 256 + byteZ b)).
    rewrite Nat2Z.inj_succ, Z.pow_succ_r by lia. ring.
Qed.

Lemma SetBytes_nil : SetBytes [] = 0.
Proof. reflexivity. Qed.

Lemma SetBytes_cons (b : byte) (bs : list byte) :
  SetBytes (b :: bs) = byteZ b * 256 ^ Z.of_nat (List.length bs) + SetBytes bs.
Proof.
  unfold SetBytes at 1. cbn [fold_left].
  rewrite SetBytes_fold. ring.
Qed.

Lemma SetBytes_app (xs ys : list byte) :
  SetBytes (xs ++ ys) = SetBytes xs * 256 ^ Z.of_nat (List.length ys) + SetBytes ys.
Proof.
  unfold SetBytes at 1. rewrite fold_left_app.
  rewrite SetBytes_fold. reflexivity.
Qed.

Lemma SetBytes_range (bs : list byte) :
  0 <= SetBytes bs < 256 ^ Z.of_nat (List.length bs).
Proof.
  induction bs as [|b bs IH].
  - rewrite SetBytes_nil. simpl. lia.
  - rewrite SetBytes_cons. cbn [List.length].
    rewrite Nat2Z.inj_succ, Z.pow_succ_r by lia.
    pose proof (byteZ_range b). nia.
Qed.

Lemma SetBytes_TrimLeftZeroes (bs : list byte) :
  SetBytes (TrimLeftZeroes bs) = SetBytes bs.
Proof.
  induction bs as [|b bs IH]; [reflexivity|].
  destruct (byteZ_zero_iff b) as [_ Hz].
  destruct b; try reflexivity.
  cbn [TrimLeftZeroes]. rewrite IH, SetBytes_cons.
  rewrite Hz by reflexivity. lia.
Qed.

Lemma SetBytes_repeat_zero (k : nat) (bs : list byte) :
  SetBytes (repeat x00 k ++ bs) = SetBytes bs.
Proof.
  induction k as [|k IH]; [reflexivity|].
  cbn [repeat app]. rewrite SetBytes_cons, IH.
  change (byteZ x00) with 0. lia.
Qed.

Lemma SetBytes_skipn (k : nat) (bs : list byte) :
  SetBytes (skipn k bs) = SetBytes bs mod 256 ^ Z.of_nat (List.length bs - k).
Proof.
  rewrite <- (firstn_skipn k bs) at 2.
  rewrite SetBytes_app.
  rewrite length_skipn.
  rewrite Z.add_comm, Z.mod_add by (apply Z.pow_nonzero; lia).
  pose proof (SetBytes_range (skipn k bs)) as Hr.
  rewrite length_skipn in Hr.
  symmetry. apply Z.mod_small. exact Hr.
Qed.

Lemma SetBytes_be_bytes (n : nat) (v : Z) :
  SetBytes (be_bytes n v) = v mod 256 ^ Z.of_nat n.
Proof.
  revert v. induction n as [|n IH]; intros v.
  - simpl. rewrite Z.mod_1_r. reflexivity.
  - cbn [be_bytes]. rewrite SetBytes_app, IH.
    cbn [List.length]. rewrite SetBytes_cons, SetBytes_nil, byteZ_Zbyte.
    change (Z.of_nat 1) with 1. change (Z.of_nat (List.length (@nil byte))) with 0.
    rewrite Nat2Z.inj_succ, Z.pow_succ_r by lia.
    rewrite Z.pow_1_r, Z.pow_0_r.
    pose proof (Z.pow_pos_nonneg 256 (Z.of_nat n) ltac:(lia) ltac:(lia)).
    rewrite (Z.rem_mul_r v 256 (256 ^ Z.of_nat n)) by lia. ring.
Qed.

Lemma byteLen_bound (v : Z) : 0 <= v -> v < 256 ^ Z.of_nat (byteLen v).
Proof.
  intros Hv. unfold byteLen.
  destruct (Z.eqb_spec v 0) as [->|Hne]; [simpl; lia|].
  assert (0 < v) as Hpos by lia.
  pose proof (Z.log2_spec v Hpos) as [_ Hlt].
  pose proof (Z.log2_nonneg v) as Hl.
  pose proof (Z.div_pos (Z.log2 v) 8 Hl ltac:(lia)) as Hq.
  rewrite Z2Nat.id by lia.
  change 256 with (2 ^ 8). rewrite <- Z.pow_mul_r by lia.
  eapply Z.lt_le_trans; [exact Hlt|].
  apply Z.pow_le_mono_r; [lia|].
  pose proof (Z.mod_pos_bound (Z.log2 v) 8 ltac:(lia)).
  pose proof (Z.div_mod (Z.log2 v) 8 ltac:(lia)). lia.
Qed.

Lemma SetBytes_Bytes (v : Z) : SetBytes (Bytes v) = Z.abs v.
Proof.
  unfold Bytes. rewrite SetBytes_be_bytes.
  apply Z.mod_small. split; [lia|].
  apply byteLen_bound. lia.
Qed.

Lemma BytesToHash_length (b : list byte) : List.length (BytesToHash b) = 32%nat.
Proof.
  unfold BytesToHash. rewrite length_app, repeat_length, length_skipn. lia.
Qed.

Lemma SetBytes_BytesToHash (b : list byte) :
  SetBytes (BytesToHash b) = SetBytes b mod 2 ^ 256.
Proof.
  unfold BytesToHash. rewrite SetBytes_repeat_zero, SetBytes_skipn.
  destruct (Nat.le_gt_cases (List.length b) 32) as [Hle|Hgt].
  - replace (List.length b - (List.length b - 32))%nat with (List.length b) by lia.
    pose proof (SetBytes_range b) as Hr.
    assert (256 ^ Z.of_nat (List.length b) <= 2 ^ 256) as Hp.
    { change (2 ^ 256) with (256 ^ Z.of_nat 32).
      apply Z.pow_le_mono_r; lia. }
    rewrite !Z.mod_small by lia. reflexivity.
  - replace (List.length b - (List.length b - 32))%nat with 32%nat by lia.
    reflexivity.
Qed.

Lemma Int_Int_pred (z : Z) : Int (Int z - 1) = Int (z - 1).
Proof.
  unfold Int. f_equal.
  replace ((z + 2 ^ 63) mod 2 ^ 64 - 2 ^ 63 - 1 + 2 ^ 63)
    with ((z + 2 ^ 63) mod 2 ^ 64 - 1) by lia.
  rewrite Zminus_mod_idemp_l. f_equal. lia.
Qed.

(** ** Keccak-256 test vectors *)

Example keccak256_empty :
  SetBytes (Keccak.keccak256 [])
  = 0xc5d2460186f7233c927e7db2dcc703c0e500b653ca82273b7bfad8045d85a470.
Proof. vm_compute. reflexivity. Qed.

Example keccak256_word_one :
  SetBytes (Keccak.keccak256 (be_bytes 32 1))
  = 0xb10e2d527612073b26eecdfd717e6a320cf44b4afac2b0732d9fcbe2b7fa0cf6.
Proof. vm_compute. reflexivity. Qed.

(** ** Token metadata *)

Section Metadata.
Import erc20.

Local Ltac failed := solve [eexists; reflexivity].

(** C9. [GetTokenData] succeeds exactly when the name and symbol calls
    return or fail with the decode-of-empty-result error, and the decimals and
    total supply calls return: a name (symbol) that failed that way is
    replaced by "unknown-name" ("unknown-symbol"); any other name or symbol
    failure, and every failure of decimals or of the total supply, makes
    [GetTokenData] return an error. *)
Theorem GetTokenData_placeholders (w : ERC20Token) :
  (tolerated (TokenName w) -> tolerated (TokenSymbol w) ->
   forall d s, TokenDecimals w = Ok d -> TokenTotalSupply w = Ok s ->
   GetTokenData w =
     Ok {| Address_ := TokenAddr w;
           Name := orPlaceholder (TokenName w) "unknown-name";
           Symbol := orPlaceholder (TokenSymbol w) "unknown-symbol";
           Decimals := d; TotalSupply := s |})
  /\ (~ tolerated (TokenName w) \/ ~ tolerated (TokenSymbol w)
      \/ (exists e, TokenDecimals w = Err e)
      \/ (exists e, TokenTotalSupply w = Err e) ->
      exists e, GetTokenData w = Err e).
Proof.
  unfold GetTokenData, tolerated, orPlaceholder. split.
  - intros Hn Hs d s Hd Ht. rewrite Hd, Ht.
    destruct (TokenName w) as [n|en]; [|rewrite Hn];
      (destruct (TokenSymbol w) as [y|ey]; [|rewrite Hs]); reflexivity.
  - intros Hfail.
    destruct (TokenName w) as [n|en];
      [|destruct (Contains en emptyMarker) eqn:En; [|failed]];
      (destruct (TokenSymbol w) as [y|ey];
        [|destruct (Contains ey emptyMarker) eqn:Ey; [|failed]]);
      (destruct (TokenDecimals w) as [d|ed]; [|failed]);
      (destruct (TokenTotalSupply w) as [s|es]; [|failed]);
      exfalso; destruct Hfail as [Hf|[Hf|[[e Hf]|[e Hf]]]];
      try discriminate; apply Hf; auto.
Qed.

Lemma GetTokenData_placeholders_witness :
  GetTokenData namelessToken =
    Ok {| Address_ := Fixture.tokenAddr0;
          Name := "unknown-name"; Symbol := "unknown-symbol";
          Decimals := 18; TotalSupply := 1000000 |}
  /\ exists e, GetTokenData brokenToken = Err e.
Proof.
  split.
  - apply (proj1 (GetTokenData_placeholders namelessToken));
      try reflexivity; vm_compute; reflexivity.
  - apply (proj2 (GetTokenData_placeholders brokenToken)).
    left. vm_compute. discriminate.
Defined.

End Metadata.

(** ** Reading the checkpoint array *)

Section Reads.
Context `{Helpers} (m : Minime).

Lemma arraySlot_Int (holder : Address) (islot position : Z) :
  arraySlot holder islot (Int position) = arraySlot holder islot position.
Proof. unfold arraySlot. rewrite Int_Int_pred. reflexivity. Qed.

Lemma arraySlot_length (holder : Address) (islot position : Z) :
  List.length (arraySlot holder islot position) = 32%nat.
Proof. apply BytesToHash_length. Qed.

Lemma arraySlot_value (holder : Address) (islot position : Z) :
  SetBytes (arraySlot holder islot position)
  = Z.abs (SetBytes (HashFromPosition (GetMapSlot holder islot)) + Int (position - 1))
    mod 2 ^ 256.
Proof.
  unfold arraySlot. cbv zeta.
  rewrite SetBytes_BytesToHash, SetBytes_Bytes. reflexivity.
Qed.

Lemma getMinimeAtPosition_Int (holder : Address) (islot position : Z) (block : option Z) :
  getMinimeAtPosition m holder islot (Int position) block
  = getMinimeAtPosition m holder islot position block.
Proof. unfold getMinimeAtPosition. rewrite arraySlot_Int. reflexivity. Qed.

Lemma getMinimeAtPosition_slot (holder : Address) (islot position : Z)
    (block : option Z) (balance : Q) (mblock : Z) (slot : Hash) :
  getMinimeAtPosition m holder islot position block = Ok (balance, mblock, slot) ->
  slot = arraySlot holder islot position.
Proof.
  unfold getMinimeAtPosition.
  destruct (erc20.GetTokenData (erc20_ m)) as [token|e]; [|discriminate].
  cbn [bind].
  destruct (erc20.EthCli_StorageAt _ _ _ _) as [value|e]; [|discriminate].
  cbn [bind].
  destruct (ParseMinimeValue value (erc20.Decimals token)) as [[b ib] mb].
  intros [= _ _ <-]. reflexivity.
Qed.

(** What a successful checkpoint read consists of: the token metadata, the
    word at the entry slot, and its decoding. *)
Lemma getMinimeAtPosition_inv (holder : Address) (islot position : Z)
    (block : option Z) (balance : Q) (mblock : Z) (slot : Hash) :
  getMinimeAtPosition m holder islot position block = Ok (balance, mblock, slot) ->
  exists token value ibalance,
    erc20.GetTokenData (erc20_ m) = Ok token /\
    erc20.EthCli_StorageAt (erc20_ m) (erc20.TokenAddr (erc20_ m))
      (arraySlot holder islot position) block = Ok value /\
    ParseMinimeValue value (erc20.Decimals token) = (balance, ibalance, mblock).
Proof.
  unfold getMinimeAtPosition.
  destruct (erc20.GetTokenData (erc20_ m)) as [token|e]; [|discriminate].
  cbn [bind].
  destruct (erc20.EthCli_StorageAt _ _ _ _) as [value|e]; [|discriminate].
  cbn [bind].
  destruct (ParseMinimeValue value (erc20.Decimals token)) as [[b ib] mb] eqn:E.
  intros [= <- <- _]. exists token, value, ib. auto.
Qed.

Lemma getMinimeArraySize_word (holder : Address) (islot : Z) (w : list byte) :
  lengthWord m holder islot = Ok w ->
  getMinimeArraySize m holder islot = Ok (Int (SetBytes w mod 2 ^ 64)).
Proof.
  unfold lengthWord, getMinimeArraySize. intros ->. cbn [bind].
  rewrite SetBytes_TrimLeftZeroes. unfold Uint64.
  rewrite Z.abs_eq by apply SetBytes_range. reflexivity.
Qed.

Lemma getMinimeArraySize_inv (holder : Address) (islot size : Z) :
  getMinimeArraySize m holder islot = Ok size ->
  exists w, lengthWord m holder islot = Ok w /\ size = Int (SetBytes w mod 2 ^ 64).
Proof.
  intros Hs. unfold lengthWord.
  destruct (erc20.EthCli_StorageAt (erc20_ m) (erc20.TokenAddr (erc20_ m))
              (GetMapSlot holder islot) None) as [w|e] eqn:E.
  - exists w. split; [reflexivity|].
    rewrite (getMinimeArraySize_word holder islot w E) in Hs. congruence.
  - unfold getMinimeArraySize in Hs. rewrite E in Hs. discriminate.
Qed.

Lemma getMinimeArraySize_range (holder : Address) (islot size : Z) :
  getMinimeArraySize m holder islot = Ok size -> - 2 ^ 63 <= size < 2 ^ 63.
Proof.
  intros Hs. apply getMinimeArraySize_inv in Hs as (w & _ & ->). apply Int_range.
Qed.

End Reads.

(** ** The discovery loop *)

Section Discovery.
Context `{Helpers} (m : Minime).
Variables (holder : Address) (balance : Q).

Local Notation "'candidate' k" := (maxIterationsForDiscover - Z.of_nat k)
  (at level 10, k at level 9).

(** A failed array-length read leaves the loop with that error. *)
Lemma discoverLoop_abort (amount : option Q) (k : nat) (e : error) :
  getMinimeArraySize m holder (candidate (S k)) = Err e ->
  discoverLoop m holder balance amount (S k) = Err e.
Proof. intros Hs. cbn [discoverLoop]. rewrite Hs. reflexivity. Qed.

(** A failed checkpoint read moves on to the next candidate. *)
Lemma discoverLoop_read_failure (amount : option Q) (k : nat) (size : Z) (e : error) :
  getMinimeArraySize m holder (candidate (S k)) = Ok size ->
  getMinimeAtPosition m holder (candidate (S k)) size None = Err e ->
  discoverLoop m holder balance amount (S k)
  = discoverLoop m holder balance (if size <=? 0 then amount else None) k.
Proof.
  intros Hs Hr. cbn [discoverLoop]. rewrite Hs. cbn [bind].
  destruct (size <=? 0); [reflexivity|]. rewrite Hr. reflexivity.
Qed.

Lemma discoverLoop_accept (amount : option Q) (k : nat) (a : Q) :
  qualifies m holder balance (candidate (S k)) a ->
  discoverLoop m holder balance amount (S k) = Ok (candidate (S k), Some a).
Proof.
  intros (size & block & slot & Hs & Hpos & Hr & Hb & Heq).
  cbn [discoverLoop]. rewrite Hs. cbn [bind].
  destruct (Z.leb_spec size 0); [lia|]. rewrite Hr.
  destruct (Z.eqb_spec (Uint64 block) 0); [contradiction|].
  apply Qeq_alt in Heq. rewrite Heq. reflexivity.
Qed.

Lemma discoverLoop_continue (amount : option Q) (k : nat) :
  lengthReadable m holder (candidate (S k)) ->
  ~ (exists a, qualifies m holder balance (candidate (S k)) a) ->
  exists amount',
    discoverLoop m holder balance amount (S k)
    = discoverLoop m holder balance amount' k.
Proof.
  intros [size Hs] Hnq. cbn [discoverLoop]. rewrite Hs. cbn [bind].
  destruct (Z.leb_spec size 0); [eauto|].
  destruct (getMinimeAtPosition m holder (candidate (S k)) size None)
    as [[[a block] slot]|e] eqn:Hr; [|eauto].
  destruct (Z.eqb_spec (Uint64 block) 0); [eauto|].
  destruct (a ?= balance)%Q eqn:Hc; eauto.
  exfalso. apply Hnq. exists a, size, block, slot.
  rewrite Qeq_alt. auto.
Qed.

Lemma discoverLoop_found (c : Z) (a : Q) (k : nat) (amount : option Q) :
  candidate k <= c < maxIterationsForDiscover ->
  (forall j, candidate k <= j < c ->
     lengthReadable m holder j /\ ~ (exists a', qualifies m holder balance j a')) ->
  qualifies m holder balance c a ->
  discoverLoop m holder balance amount k = Ok (c, Some a).
Proof.
  revert amount. induction k as [|k IH]; intros amount Hc Hbefore Hq.
  - simpl in Hc. lia.
  - destruct (Z.eq_dec c (candidate (S k))) as [->|Hne].
    + apply discoverLoop_accept. exact Hq.
    + destruct (Hbefore (candidate (S k))) as [Hl Hn]; [lia|].
      destruct (discoverLoop_continue amount k Hl Hn) as [amount' ->].
      apply IH; [lia| |exact Hq].
      intros j Hj. apply Hbefore. lia.
Qed.

Lemma discoverLoop_none (k : nat) (amount : option Q) :
  (forall j, candidate k <= j < maxIterationsForDiscover ->
     lengthReadable m holder j /\ ~ (exists a, qualifies m holder balance j a)) ->
  exists amount', discoverLoop m holder balance amount k = Ok (-1, amount').
Proof.
  revert amount. induction k as [|k IH]; intros amount Hall.
  - exists amount. reflexivity.
  - destruct (Hall (candidate (S k))) as [Hl Hn]; [unfold maxIterationsForDiscover; lia|].
    destruct (discoverLoop_continue amount k Hl Hn) as [amount' ->].
    apply IH. intros j Hj. apply Hall. lia.
Qed.

Lemma discoverLoop_length_failure (c : Z) (e : error) (k : nat) (amount : option Q) :
  candidate k <= c < maxIterationsForDiscover ->
  (forall j, candidate k <= j < c ->
     lengthReadable m holder j /\ ~ (exists a, qualifies m holder balance j a)) ->
  getMinimeArraySize m holder c = Err e ->
  discoverLoop m holder balance amount k = Err e.
Proof.
  revert amount. induction k as [|k IH]; intros amount Hc Hbefore He.
  - simpl in Hc. lia.
  - destruct (Z.eq_dec c (candidate (S k))) as [->|Hne].
    + apply discoverLoop_abort. exact He.
    + destruct (Hbefore (candidate (S k))) as [Hl Hn]; [lia|].
      destruct (discoverLoop_continue amount k Hl Hn) as [amount' ->].
      apply IH; [lia| |exact He].
      intros j Hj. apply Hbefore. lia.
Qed.

(** The loop leaves with index -1 or with a candidate that qualifies. *)
Lemma discoverLoop_sound (k : nat) (amount : option Q) (i : Z) (a : option Q) :
  discoverLoop m holder balance amount k = Ok (i, a) ->
  i = -1 \/
  (candidate k <= i < maxIterationsForDiscover /\
   exists a', a = Some a' /\ qualifies m holder balance i a').
Proof.
  revert amount. induction k as [|k IH]; intros amount Hl.
  - injection Hl as <- _. left. reflexivity.
  - assert (forall amount',
              discoverLoop m holder balance amount' k = Ok (i, a) ->
              i = -1 \/
              (candidate (S k) <= i < maxIterationsForDiscover /\
               exists a', a = Some a' /\ qualifies m holder balance i a')) as Hnext.
    { intros amount' Hk. destruct (IH amount' Hk) as [?|[? ?]]; [auto|].
      right. split; [lia|assumption]. }
    cbn [discoverLoop] in Hl.
    destruct (getMinimeArraySize m holder (candidate (S k))) as [size|e] eqn:Hs;
      [|discriminate].
    cbn [bind] in Hl.
    destruct (Z.leb_spec size 0); [eauto|].
    destruct (getMinimeAtPosition m holder (candidate (S k)) size None)
      as [[[a0 block] slot]|e] eqn:Hr; [|eauto].
    destruct (Z.eqb_spec (Uint64 block) 0); [eauto|].
    destruct (a0 ?= balance)%Q eqn:Hc; eauto.
    assert (candidate (S k) = i /\ Some a0 = a) as [<- <-] by (split; congruence).
    right. split.
    + unfold maxIterationsForDiscover. lia.
    + exists a0. split; [reflexivity|].
      exists size, block, slot. rewrite Qeq_alt. auto.
Qed.

(** The only failures of the loop are failures of an array-length read. *)
Lemma discoverLoop_error (k : nat) (amount : option Q) (e : error) :
  discoverLoop m holder balance amount k = Err e ->
  exists c, candidate k <= c < maxIterationsForDiscover /\
            getMinimeArraySize m holder c = Err e.
Proof.
  revert amount. induction k as [|k IH]; intros amount Hl; [discriminate|].
  assert (forall amount',
            discoverLoop m holder balance amount' k = Err e ->
            exists c, candidate (S k) <= c < maxIterationsForDiscover /\
                      getMinimeArraySize m holder c = Err e) as Hnext.
  { intros amount' Hk. destruct (IH amount' Hk) as (c & ? & ?).
    exists c. split; [lia|assumption]. }
  cbn [discoverLoop] in Hl.
  destruct (getMinimeArraySize m holder (candidate (S k))) as [size|e'] eqn:Hs.
  - cbn [bind] in Hl.
    destruct (Z.leb_spec size 0); [eauto|].
    destruct (getMinimeAtPosition m holder (candidate (S k)) size None)
      as [[[a0 block] slot]|e'] eqn:Hr; [|eauto].
    destruct (Z.eqb_spec (Uint64 block) 0); [eauto|].
    destruct (a0 ?= balance)%Q; eauto. discriminate.
  - injection Hl as ->. exists (candidate (S k)). split; [|exact Hs].
    unfold maxIterationsForDiscover. lia.
Qed.

End Discovery.

(** ** Slot discovery *)

Section DiscoverSlotFacts.
Context `{Helpers} (m : Minime).

Lemma topEntryMatch_qualifies (holder : Address) (balance : Q) (i : Z) (a : Q) :
  topEntryMatch m holder balance i = Some a -> qualifies m holder balance i a.
Proof.
  unfold topEntryMatch, qualifies.
  destruct (getMinimeArraySize m holder i) as [size|e] eqn:Hs; [|discriminate].
  destruct (Z.ltb_spec 0 size); [|discriminate].
  destruct (getMinimeAtPosition m holder i size None) as [[[a0 block] slot]|e] eqn:Hr;
    [|discriminate].
  destruct (Z.eqb_spec (Uint64 block) 0); [discriminate|].
  destruct (Qeq_bool a0 balance) eqn:Hq; [|discriminate].
  intros [= <-]. exists size, block, slot.
  apply Qeq_bool_iff in Hq. repeat split; auto.
Qed.

Lemma topEntryMatch_None (holder : Address) (balance : Q) (i : Z) :
  topEntryMatch m holder balance i = None ->
  ~ (exists a, qualifies m holder balance i a).
Proof.
  unfold topEntryMatch. intros Hn (a & size & block & slot & Hs & Hpos & Hr & Hb & Hq).
  rewrite Hs, Hr in Hn.
  destruct (Z.ltb_spec 0 size); [|lia].
  destruct (Z.eqb_spec (Uint64 block) 0); [contradiction|].
  apply Qeq_bool_iff in Hq. rewrite Hq in Hn. discriminate.
Qed.

(** C5. When the balance call returns: if candidate [c] below the ceiling
    of 20 qualifies (positive length, top entry read with a block number that
    is not 0, decoded balance equal to the current balance) and every smaller
    candidate has a readable length word and does not qualify, [DiscoverSlot]
    returns [c] with the matched balance; if every candidate below the ceiling
    has a readable length word and none qualifies, it returns
    [ErrSlotNotFound]; if the array-length read of a candidate [c] fails, every
    smaller candidate having a readable length word and not qualifying,
    [DiscoverSlot] returns index 0 with that error.  When the balance call
    fails, [DiscoverSlot] returns index -1 with its error. *)
Theorem DiscoverSlot_smallest_match (holder : Address) :
  (forall balance,
     erc20.Balance (erc20_ m) holder = Ok balance ->
     (forall c a,
        0 <= c < maxIterationsForDiscover ->
        qualifies m holder balance c a ->
        (forall j, 0 <= j < c ->
           lengthReadable m holder j
           /\ ~ (exists a', qualifies m holder balance j a')) ->
        DiscoverSlot m holder = (c, Some a, None))
     /\ ((forall j, 0 <= j < maxIterationsForDiscover ->
            lengthReadable m holder j
            /\ ~ (exists a, qualifies m holder balance j a)) ->
         DiscoverSlot m holder = (-1, None, Some ErrSlotNotFound))
     /\ (forall c e,
           0 <= c < maxIterationsForDiscover ->
           (forall j, 0 <= j < c ->
              lengthReadable m holder j
              /\ ~ (exists a, qualifies m holder balance j a)) ->
           getMinimeArraySize m holder c = Err e ->
           DiscoverSlot m holder = (0, None, Some e)))
  /\ (forall e,
        erc20.Balance (erc20_ m) holder = Err e ->
        DiscoverSlot m holder = (-1, None, Some e)).
Proof.
  split.
  - intros balance Hb. unfold DiscoverSlot. rewrite Hb.
    change (Z.to_nat maxIterationsForDiscover) with 20%nat.
    split; [|split].
    + intros c a Hc Hq Hbefore.
      rewrite (discoverLoop_found m holder balance c a 20 None Hc).
      * unfold discoverReturn. destruct (Z.eqb_spec c (-1)); [lia|reflexivity].
      * intros j Hj. apply Hbefore. unfold maxIterationsForDiscover in Hj. lia.
      * exact Hq.
    + intros Hall.
      destruct (discoverLoop_none m holder balance 20 None) as [amount' ->].
      * intros j Hj. apply Hall. unfold maxIterationsForDiscover in *. lia.
      * reflexivity.
    + intros c e Hc Hbefore He.
      assert (discoverLoop m holder balance None 20 = Err e) as ->; [|reflexivity].
      apply (discoverLoop_length_failure m holder balance c e 20 None).
      * unfold maxIterationsForDiscover in *. lia.
      * intros j Hj. apply Hbefore. unfold maxIterationsForDiscover in Hj. lia.
      * exact He.
  - intros e Hb. unfold DiscoverSlot. rewrite Hb. reflexivity.
Qed.

Lemma discoverLoop_reach (holder : Address) (balance : Q) (n k : nat)
    (amount : option Q) :
  (forall j, maxIterationsForDiscover - Z.of_nat (n + k) <= j
             < maxIterationsForDiscover - Z.of_nat k ->
     lengthReadable m holder j /\ ~ (exists a, qualifies m holder balance j a)) ->
  exists amount',
    discoverLoop m holder balance amount (n + k)
    = discoverLoop m holder balance amount' k.
Proof.
  revert amount. induction n as [|n IH]; intros amount Hbefore.
  - exists amount. reflexivity.
  - destruct (Hbefore (maxIterationsForDiscover - Z.of_nat (S n + k))) as [Hl Hn];
      [lia|].
    destruct (discoverLoop_continue m holder balance amount (n + k) Hl Hn)
      as [amount1 Hstep].
    destruct (IH amount1) as [amount2 Hrest].
    + intros j Hj. apply Hbefore. lia.
    + exists amount2. cbn [Nat.add]. rewrite Hstep. exact Hrest.
Qed.

(** C6. Once the balance is fetched: when the loop reaches candidate [c]
    (every smaller candidate has a readable length word and does not
    qualify), a failure of the top-entry checkpoint read of [c] is passed
    over, [DiscoverSlot] going on with candidate [c + 1], whereas a failure of
    the array-length read of [c] ends [DiscoverSlot], which returns index 0
    with that error.  So the only errors [DiscoverSlot] returns are
    [ErrSlotNotFound] and the failure of an array-length read. *)
Theorem DiscoverSlot_read_failures (holder : Address) (balance : Q) :
  erc20.Balance (erc20_ m) holder = Ok balance ->
  (forall c,
     0 <= c < maxIterationsForDiscover ->
     (forall j, 0 <= j < c ->
        lengthReadable m holder j /\ ~ (exists a, qualifies m holder balance j a)) ->
     (forall size e,
        getMinimeArraySize m holder c = Ok size -> 0 < size ->
        getMinimeAtPosition m holder c size None = Err e ->
        DiscoverSlot m holder
        = discoverReturn
            (discoverLoop m holder balance None
               (Z.to_nat (maxIterationsForDiscover - (c + 1)))))
     /\ (forall e,
           getMinimeArraySize m holder c = Err e ->
           DiscoverSlot m holder = (0, None, Some e)))
  /\ (forall i a e,
        DiscoverSlot m holder = (i, a, Some e) ->
        e = ErrSlotNotFound
        \/ exists c, 0 <= c < maxIterationsForDiscover
                     /\ getMinimeArraySize m holder c = Err e).
Proof.
  intros Hb. unfold DiscoverSlot. rewrite Hb.
  change (Z.to_nat maxIterationsForDiscover) with 20%nat.
  split.
  - intros c Hc Hbefore. unfold maxIterationsForDiscover in Hc. split.
    + intros size e Hs Hpos Hr.
      set (k := Z.to_nat (maxIterationsForDiscover - (c + 1))).
      assert (maxIterationsForDiscover - Z.of_nat (S k) = c) as Hk
        by (unfold k, maxIterationsForDiscover; lia).
      destruct (discoverLoop_reach holder balance (20 - S k) (S k) None)
        as [amount' Hreach].
      { intros j Hj. apply Hbefore. unfold k, maxIterationsForDiscover in *. lia. }
      replace (20 - S k + S k)%nat with 20%nat in Hreach
        by (unfold k, maxIterationsForDiscover; lia).
      rewrite Hreach.
      rewrite (discoverLoop_read_failure m holder balance amount' k size e);
        rewrite ?Hk; auto.
      destruct (Z.leb_spec size 0); [lia|reflexivity].
    + intros e He.
      assert (discoverLoop m holder balance None 20 = Err e) as ->; [|reflexivity].
      apply (discoverLoop_length_failure m holder balance c e 20 None).
      * unfold maxIterationsForDiscover. lia.
      * intros j Hj. apply Hbefore. unfold maxIterationsForDiscover in Hj. lia.
      * exact He.
  - intros i a e.
    destruct (discoverLoop m holder balance None 20) as [[index amount]|e'] eqn:Hl;
      unfold discoverReturn.
    + destruct (index =? -1); [|discriminate].
      intros [= _ _ <-]. left. reflexivity.
    + intros [= _ _ <-]. right.
      destruct (discoverLoop_error m holder balance 20 None e' Hl) as (c & Hc & He).
      exists c. split; [|exact He].
      unfold maxIterationsForDiscover in *. lia.
Qed.

(** C7. A candidate that [DiscoverSlot] selects has an array-length word
    that is not 0 and a top entry (at position = length) that was read and
    decodes with a block number that is not 0: no candidate with a zero length
    word or a zero top block number is ever selected, whatever its decoded
    balance. *)
Theorem DiscoverSlot_selects_real_array (holder : Address) (i : Z) (a : option Q) :
  DiscoverSlot m holder = (i, a, None) ->
  0 <= i < maxIterationsForDiscover /\
  exists w size amount block slot,
    lengthWord m holder i = Ok w /\ SetBytes w <> 0 /\
    getMinimeArraySize m holder i = Ok size /\ size <> 0 /\
    getMinimeAtPosition m holder i size None = Ok (amount, block, slot) /\
    block <> 0 /\ a = Some amount.
Proof.
  unfold DiscoverSlot.
  destruct (erc20.Balance (erc20_ m) holder) as [balance|e]; [|discriminate].
  destruct (discoverLoop m holder balance None (Z.to_nat maxIterationsForDiscover))
    as [[index amount]|e] eqn:Hl; [|discriminate].
  unfold discoverReturn.
  destruct (Z.eqb_spec index (-1)) as [|Hne]; [discriminate|].
  intros [= -> ->].
  apply discoverLoop_sound in Hl as [?|[Hrange (a' & -> & Hq)]]; [contradiction|].
  destruct Hq as (size & block & slot & Hs & Hpos & Hr & Hblock & _).
  change (Z.of_nat (Z.to_nat maxIterationsForDiscover))
    with maxIterationsForDiscover in Hrange.
  split; [lia|].
  destruct (getMinimeArraySize_inv m holder i size Hs) as (w & Hw & Hsize).
  exists w, size, a', block, slot.
  repeat split; auto; try lia.
  - intros Hz. rewrite Hz in Hsize. vm_compute in Hsize. lia.
  - intros ->. apply Hblock. reflexivity.
Qed.

(** C8. [getMinimeArraySize] returns the low 64 bits of the word read at
    the array-length slot (an unsigned big-endian integer, which the removal
    of the leading zero bytes leaves unchanged) as a signed 64-bit integer.
    For a word below [2 ^ 63] it is the word itself, and it is not negative. *)
Theorem getMinimeArraySize_low64 (holder : Address) (islot : Z) (w : list byte) :
  lengthWord m holder islot = Ok w ->
  SetBytes (TrimLeftZeroes w) = SetBytes w /\
  getMinimeArraySize m holder islot = Ok (Int (SetBytes w mod 2 ^ 64)) /\
  (SetBytes w < 2 ^ 63 ->
   getMinimeArraySize m holder islot = Ok (SetBytes w) /\ 0 <= SetBytes w).
Proof.
  intros Hw. pose proof (SetBytes_range w) as Hr.
  split; [apply SetBytes_TrimLeftZeroes|].
  split; [apply getMinimeArraySize_word; exact Hw|].
  intros Hlt. split; [|lia].
  rewrite (getMinimeArraySize_word m holder islot w Hw).
  rewrite Z.mod_small by lia. rewrite Int_small by lia. reflexivity.
Qed.

End DiscoverSlotFacts.

(** ** Slot discovery on concrete nodes *)

Section DiscoverSlotCases.
Import Fixture Nodes.

(** A property of every integer below [n], from its instances. *)
Lemma below_cases (P : Z -> Prop) (n : nat) :
  Forall P (map Z.of_nat (seq 0 n)) -> forall j, 0 <= j < Z.of_nat n -> P j.
Proof.
  intros Hall j Hj. rewrite Forall_forall in Hall. apply Hall.
  replace j with (Z.of_nat (Z.to_nat j)) by lia.
  apply in_map, in_seq. lia.
Qed.

(** A candidate whose length word reads as 0 or less, or whose top entry
    does not match, is passed over. *)
Local Ltac passed_over :=
  split; [eexists; vm_compute; reflexivity
         |apply topEntryMatch_None; vm_compute; reflexivity].

Local Ltac all_passed_over n :=
  apply (below_cases _ n); simpl (map _ _);
  repeat (apply Forall_cons; [passed_over|]); apply Forall_nil.

Lemma DiscoverSlot_smallest_match_witness :
  DiscoverSlot fourCheckpoints holder0 = (3, Some (8 # 1), None)
  /\ DiscoverSlot noArray holder0 = (-1, None, Some ErrSlotNotFound)
  /\ DiscoverSlot lengthUnreadable holder0 = (0, None, Some "connection reset"%string)
  /\ DiscoverSlot balanceFails holder0 = (-1, None, Some "execution reverted"%string).
Proof.
  split; [|split; [|split]].
  - assert (erc20.Balance (erc20_ fourCheckpoints) holder0 = Ok (8 # 1)) as Hb
      by (vm_compute; reflexivity).
    assert (qualifies fourCheckpoints holder0 (8 # 1) 3 (8 # 1)) as Hq
      by (apply topEntryMatch_qualifies; vm_compute; reflexivity).
    assert (forall j, 0 <= j < 3 ->
              lengthReadable fourCheckpoints holder0 j /\
              ~ (exists a, qualifies fourCheckpoints holder0 (8 # 1) j a)) as Hbefore
      by all_passed_over 3%nat.
    exact (proj1 (proj1 (DiscoverSlot_smallest_match fourCheckpoints holder0)
                    (8 # 1) Hb)
             3 (8 # 1) ltac:(unfold maxIterationsForDiscover; lia) Hq Hbefore).
  - assert (erc20.Balance (erc20_ noArray) holder0 = Ok (8 # 1)) as Hb
      by (vm_compute; reflexivity).
    assert (forall j, 0 <= j < maxIterationsForDiscover ->
              lengthReadable noArray holder0 j /\
              ~ (exists a, qualifies noArray holder0 (8 # 1) j a)) as Hall
      by all_passed_over 20%nat.
    exact (proj1 (proj2 (proj1 (DiscoverSlot_smallest_match noArray holder0)
                           (8 # 1) Hb)) Hall).
  - assert (erc20.Balance (erc20_ lengthUnreadable) holder0 = Ok (8 # 1)) as Hb
      by (vm_compute; reflexivity).
    assert (forall j, 0 <= j < 0 ->
              lengthReadable lengthUnreadable holder0 j /\
              ~ (exists a, qualifies lengthUnreadable holder0 (8 # 1) j a)) as Hbefore
      by (intros j Hj; lia).
    assert (getMinimeArraySize lengthUnreadable holder0 0
            = Err "connection reset"%string) as He
      by (vm_compute; reflexivity).
    exact (proj2 (proj2 (proj1 (DiscoverSlot_smallest_match lengthUnreadable holder0)
                           (8 # 1) Hb))
             0 _ ltac:(unfold maxIterationsForDiscover; lia) Hbefore He).
  - assert (erc20.Balance (erc20_ balanceFails) holder0
            = Err "execution reverted"%string) as Hb
      by (vm_compute; reflexivity).
    exact (proj2 (DiscoverSlot_smallest_match balanceFails holder0) _ Hb).
Defined.

(** C5, as stated, fails: candidate 1 is the smallest one that qualifies,
    but the length word of candidate 0 cannot be read and [DiscoverSlot]
    returns that failure. *)
Lemma DiscoverSlot_match_behind_length_failure :
  erc20.Balance (erc20_ lengthUnreadable) holder0 = Ok (8 # 1)
  /\ qualifies lengthUnreadable holder0 (8 # 1) 1 (8 # 1)
  /\ ~ (exists a, qualifies lengthUnreadable holder0 (8 # 1) 0 a)
  /\ DiscoverSlot lengthUnreadable holder0 = (0, None, Some "connection reset"%string)
  /\ DiscoverSlot lengthUnreadable holder0 <> (1, Some (8 # 1), None).
Proof.
  split; [vm_compute; reflexivity|].
  split; [apply topEntryMatch_qualifies; vm_compute; reflexivity|].
  split; [apply topEntryMatch_None; vm_compute; reflexivity|].
  split; [vm_compute; reflexivity|].
  vm_compute. discriminate.
Qed.

Lemma DiscoverSlot_read_failures_witness :
  DiscoverSlot entryUnreadable holder0
  = discoverReturn
      (discoverLoop entryUnreadable holder0 (3 # 1) None
         (Z.to_nat (maxIterationsForDiscover - (1 + 1))))
  /\ DiscoverSlot lengthTimeout holder0 = (0, None, Some "request timed out"%string).
Proof.
  split.
  - assert (erc20.Balance (erc20_ entryUnreadable) holder0 = Ok (3 # 1)) as Hb
      by (vm_compute; reflexivity).
    assert (forall j, 0 <= j < 1 ->
              lengthReadable entryUnreadable holder0 j /\
              ~ (exists a, qualifies entryUnreadable holder0 (3 # 1) j a)) as Hbefore
      by all_passed_over 1%nat.
    assert (getMinimeArraySize entryUnreadable holder0 1 = Ok 2) as Hs
      by (vm_compute; reflexivity).
    assert (getMinimeAtPosition entryUnreadable holder0 1 2 None
            = Err "missing trie node"%string) as Hr
      by (vm_compute; reflexivity).
    exact (proj1 (proj1 (DiscoverSlot_read_failures entryUnreadable holder0 (3 # 1) Hb)
                    1 ltac:(unfold maxIterationsForDiscover; lia) Hbefore)
             2 _ Hs ltac:(lia) Hr).
  - assert (erc20.Balance (erc20_ lengthTimeout) holder0 = Ok (3 # 1)) as Hb
      by (vm_compute; reflexivity).
    assert (forall j, 0 <= j < 2 ->
              lengthReadable lengthTimeout holder0 j /\
              ~ (exists a, qualifies lengthTimeout holder0 (3 # 1) j a)) as Hbefore
      by all_passed_over 2%nat.
    assert (getMinimeArraySize lengthTimeout holder0 2
            = Err "request timed out"%string) as He
      by (vm_compute; reflexivity).
    exact (proj2 (proj1 (DiscoverSlot_read_failures lengthTimeout holder0 (3 # 1) Hb)
                    2 ltac:(unfold maxIterationsForDiscover; lia) Hbefore) _ He).
Defined.

(** C6, as stated, fails: the array-length read of candidate 2 fails and
    [DiscoverSlot] returns that failure, although candidate 5 qualifies. *)
Lemma DiscoverSlot_stops_at_length_failure :
  erc20.Balance (erc20_ lengthTimeout) holder0 = Ok (3 # 1)
  /\ getMinimeArraySize lengthTimeout holder0 2 = Err "request timed out"%string
  /\ qualifies lengthTimeout holder0 (3 # 1) 5 (3 # 1)
  /\ DiscoverSlot lengthTimeout holder0 = (0, None, Some "request timed out"%string).
Proof.
  split; [vm_compute; reflexivity|].
  split; [vm_compute; reflexivity|].
  split; [apply topEntryMatch_qualifies; vm_compute; reflexivity|].
  vm_compute. reflexivity.
Qed.

Lemma DiscoverSlot_selects_real_array_witness :
  0 <= 3 < maxIterationsForDiscover /\
  exists w size amount block slot,
    lengthWord fourCheckpoints holder0 3 = Ok w /\ SetBytes w <> 0 /\
    getMinimeArraySize fourCheckpoints holder0 3 = Ok size /\ size <> 0 /\
    getMinimeAtPosition fourCheckpoints holder0 3 size None = Ok (amount, block, slot) /\
    block <> 0 /\ Some (8 # 1) = Some amount.
Proof.
  apply (DiscoverSlot_selects_real_array fourCheckpoints holder0 3 (Some (8 # 1))).
  vm_compute. reflexivity.
Defined.

Lemma getMinimeArraySize_low64_witness :
  SetBytes (TrimLeftZeroes (be_bytes 32 4)) = SetBytes (be_bytes 32 4) /\
  getMinimeArraySize fourCheckpoints holder0 3
  = Ok (Int (SetBytes (be_bytes 32 4) mod 2 ^ 64)) /\
  (SetBytes (be_bytes 32 4) < 2 ^ 63 ->
   getMinimeArraySize fourCheckpoints holder0 3 = Ok (SetBytes (be_bytes 32 4))
   /\ 0 <= SetBytes (be_bytes 32 4)).
Proof.
  apply (getMinimeArraySize_low64 fourCheckpoints holder0 3 (be_bytes 32 4)).
  vm_compute. reflexivity.
Defined.

(** C8, as stated, fails: the 32-byte length word [2 ^ 63] is returned as
    [- 2 ^ 63], a negative integer different from the word. *)
Lemma getMinimeArraySize_negative :
  List.length (be_bytes 32 (2 ^ 63)) = 32%nat
  /\ lengthWord hugeLength holder0 0 = Ok (be_bytes 32 (2 ^ 63))
  /\ SetBytes (TrimLeftZeroes (be_bytes 32 (2 ^ 63))) = 2 ^ 63
  /\ getMinimeArraySize hugeLength holder0 0 = Ok (- 2 ^ 63)
  /\ ~ (exists n, getMinimeArraySize hugeLength holder0 0 = Ok n /\ 0 <= n
                  /\ n = SetBytes (TrimLeftZeroes (be_bytes 32 (2 ^ 63)))).
Proof.
  assert (getMinimeArraySize hugeLength holder0 0 = Ok (- 2 ^ 63)) as Hs
    by (vm_compute; reflexivity).
  split; [vm_compute; reflexivity|].
  split; [vm_compute; reflexivity|].
  split; [vm_compute; reflexivity|].
  split; [exact Hs|].
  intros (n & Hn & Hpos & _). rewrite Hs in Hn.
  injection Hn as <-. lia.
Qed.

End DiscoverSlotCases.

(** ** The selection of the two keys *)

Section Selection.
Context `{Helpers} (m : Minime).
Variables (holder : Address) (islot target : Z).

Local Notation "'read' position" :=
  (getMinimeAtPosition m holder islot position (Some target))
  (at level 10, position at level 9).

(** One iteration of the backward scan that does not bracket the target. *)
Lemma scanCheckpoints_skip (n : nat) (b : Q) (cb : Z) (s : Hash) :
  read (Z.of_nat (S n) - 1) = Ok (b, cb, s) ->
  Uint64 cb < Uint64 target ->
  scanCheckpoints m holder target islot (S n)
  = scanCheckpoints m holder target islot n.
Proof.
  intros Hr Hlt. cbn [scanCheckpoints]. rewrite Hr. cbn [wrapErr bind].
  destruct (Z.leb_spec (Uint64 target) (Uint64 cb)); [lia|reflexivity].
Qed.

(** One iteration whose read fails. *)
Lemma scanCheckpoints_read_failure (n : nat) (e : error) :
  read (Z.of_nat (S n) - 1) = Err e ->
  scanCheckpoints m holder target islot (S n)
  = Err ("cannot get minime: " ++ e)%string.
Proof. intros Hr. cbn [scanCheckpoints]. rewrite Hr. reflexivity. Qed.

(** One iteration that brackets the target: the entry at [i] is checked to
    be empty. *)
Lemma scanCheckpoints_hit (n : nat) (b : Q) (cb : Z) (prevSlot : Hash)
    (b1 : Q) (blk1 : Z) (currSlot : Hash) :
  read (Z.of_nat (S n) - 1) = Ok (b, cb, prevSlot) ->
  Uint64 target <= Uint64 cb ->
  read (Z.of_nat (S n)) = Ok (b1, blk1, currSlot) ->
  scanCheckpoints m holder target islot (S n)
  = match (b1 ?= 0 # 1)%Q with
    | Gt => Err "proof of nil has a balance value"%string
    | _ => if 0 <? Uint64 blk1 then Err "proof of nil has a block value"%string
           else Ok [prevSlot; currSlot]
    end.
Proof.
  intros Hr Hle Hc. cbn [scanCheckpoints]. rewrite Hr. cbn [wrapErr bind].
  destruct (Z.leb_spec (Uint64 target) (Uint64 cb)); [|lia].
  rewrite Hc. reflexivity.
Qed.

(** Iterations that do not bracket the target are passed. *)
Lemma scanCheckpoints_skip_to (j n : nat) :
  (j <= n)%nat ->
  (forall p, Z.of_nat j <= p < Z.of_nat n ->
     exists b cb s, read p = Ok (b, cb, s) /\ Uint64 cb < Uint64 target) ->
  scanCheckpoints m holder target islot n
  = scanCheckpoints m holder target islot j.
Proof.
  intros Hjn. induction Hjn as [|n Hjn IH]; intros Hall; [reflexivity|].
  destruct (Hall (Z.of_nat (S n) - 1)) as (b & cb & s & Hr & Hlt); [lia|].
  rewrite (scanCheckpoints_skip n b cb s Hr Hlt).
  apply IH. intros p Hp. apply Hall. lia.
Qed.

(** The scan never returns a list of keys of another length than 0 or 2. *)
Lemma scanCheckpoints_keys (n : nat) (keys : list (list byte)) :
  scanCheckpoints m holder target islot n = Ok keys ->
  keys = [] \/ exists i,
    0 < i <= Z.of_nat n /\
    keys = [arraySlot holder islot (i - 1); arraySlot holder islot i].
Proof.
  induction n as [|n IH]; intros Hk.
  - injection Hk as <-. left. reflexivity.
  - cbn [scanCheckpoints] in Hk.
    destruct (read (Z.of_nat (S n) - 1)) as [[[b cb] prevSlot]|e] eqn:Hr;
      [|discriminate].
    cbn [wrapErr bind] in Hk.
    destruct (Uint64 target <=? Uint64 cb).
    + destruct (read (Z.of_nat (S n))) as [[[b1 blk1] currSlot]|e] eqn:Hc;
        [|discriminate].
      cbn [bind] in Hk.
      apply getMinimeAtPosition_slot in Hr, Hc. subst prevSlot currSlot.
      right. exists (Z.of_nat (S n)). split; [lia|].
      destruct (b1 ?= 0 # 1)%Q; try discriminate;
        destruct (0 <? Uint64 blk1); try discriminate;
        injection Hk as <-; reflexivity.
    + destruct (IH Hk) as [?|(i & Hi & ?)]; [auto|].
      right. exists i. split; [lia|assumption].
Qed.

(** The first branch of [GetProof]: the last checkpoint is at or before the
    target; the next word is read, and its content is not looked at. *)
Lemma GetProof_keys_first_branch (count : Z) (b : Q) (last : Z) (slot : Hash)
    (b2 : Q) (blk2 : Z) (slot2 : Hash) :
  getMinimeArraySize m holder islot = Ok count ->
  read count = Ok (b, last, slot) ->
  Uint64 last <= Uint64 target ->
  read (count + 1) = Ok (b2, blk2, slot2) ->
  GetProof_keys m holder target islot = Ok [slot; slot2].
Proof.
  intros Hs Hr Hle Hn. unfold GetProof_keys.
  rewrite Hs. cbn [wrapErr bind]. rewrite Hr. cbn [wrapErr bind].
  destruct (Z.leb_spec (Uint64 last) (Uint64 target)); [|lia].
  rewrite getMinimeAtPosition_Int, Hn. reflexivity.
Qed.

(** The second branch: the outcome of [GetProof] is the outcome of the
    backward scan, "checkpoint not found" when it selects nothing. *)
Lemma GetProof_keys_second_branch (count : Z) (b : Q) (last : Z) (slot : Hash) :
  getMinimeArraySize m holder islot = Ok count ->
  read count = Ok (b, last, slot) ->
  Uint64 target < Uint64 last ->
  GetProof_keys m holder target islot
  = match scanCheckpoints m holder target islot (Z.to_nat (Int (count - 1))) with
    | Ok [] => Err "checkpoint not found"%string
    | r => r
    end.
Proof.
  intros Hs Hr Hlt. unfold GetProof_keys.
  rewrite Hs. cbn [wrapErr bind]. rewrite Hr. cbn [wrapErr bind].
  destruct (Z.leb_spec (Uint64 last) (Uint64 target)); [lia|].
  cbn [bind List.length Z.of_nat Z.eqb].
  destruct (scanCheckpoints m holder target islot (Z.to_nat (Int (count - 1))))
    as [keys|e] eqn:Hk; [|reflexivity].
  cbn [bind].
  destruct (scanCheckpoints_keys _ keys Hk) as [->|(i & _ & ->)]; reflexivity.
Qed.

(** C3. If the array-length read returns [count] and the checkpoint read
    at position [count], evaluated at the target block, returns the block
    number [lastKnownBlock] with [lastKnownBlock <= targetBlock] (block
    numbers of 64 bits), then: when the read of position [count + 1] returns,
    [GetProof] selects exactly the keys of positions [count] and [count + 1]
    and hands them to the proof request; when that read fails, [GetProof]
    returns its error. *)
Theorem GetProof_at_or_beyond_newest (count : Z) (b : Q) (last : Z) (slot : Hash) :
  getMinimeArraySize m holder islot = Ok count ->
  read count = Ok (b, last, slot) ->
  0 <= last <= target -> target < 2 ^ 64 ->
  (forall next,
     read (count + 1) = Ok next ->
     GetProof_keys m holder target islot
     = Ok [arraySlot holder islot count; arraySlot holder islot (count + 1)]
     /\ GetProof m holder target islot
        = erc20.GetProof (erc20_ m)
            [arraySlot holder islot count; arraySlot holder islot (count + 1)]
            (Some target))
  /\ (forall e,
        read (count + 1) = Err e ->
        GetProof_keys m holder target islot = Err e
        /\ GetProof m holder target islot = Err e).
Proof.
  intros Hs Hr Hle Hlt.
  assert (Uint64 last <= Uint64 target) as Hu
    by (rewrite !Uint64_small by lia; lia).
  split.
  - intros [[b2 blk2] slot2] Hn.
    assert (GetProof_keys m holder target islot
            = Ok [arraySlot holder islot count; arraySlot holder islot (count + 1)])
      as Hkeys.
    { rewrite (GetProof_keys_first_branch count b last slot b2 blk2 slot2 Hs Hr Hu Hn).
      apply getMinimeAtPosition_slot in Hr, Hn. subst. reflexivity. }
    split; [exact Hkeys|].
    unfold GetProof. rewrite Hkeys. reflexivity.
  - intros e He.
    assert (GetProof_keys m holder target islot = Err e) as Hkeys.
    { unfold GetProof_keys. rewrite Hs. cbn [wrapErr bind].
      rewrite Hr. cbn [wrapErr bind].
      destruct (Z.leb_spec (Uint64 last) (Uint64 target)); [|lia].
      rewrite getMinimeAtPosition_Int, He. reflexivity. }
    split; [exact Hkeys|].
    unfold GetProof. rewrite Hkeys. reflexivity.
Qed.

(** C2. The check of the proof-of-nil position exists in the backward scan
    only.  When the last checkpoint is at or before the target, the word read
    at position [count + 1] may decode with a positive balance and a block
    number that is not 0: [GetProof] selects the two keys all the same.  In
    the backward scan, a positive balance or a block number that is not 0 at
    the selected position [i] is an error. *)
Theorem GetProof_nil_check_only_in_scan :
  (forall count b last slot b2 blk2 slot2,
     getMinimeArraySize m holder islot = Ok count ->
     read count = Ok (b, last, slot) ->
     Uint64 last <= Uint64 target ->
     read (count + 1) = Ok (b2, blk2, slot2) ->
     (0 < b2)%Q -> 0 < blk2 ->
     GetProof_keys m holder target islot = Ok [slot; slot2])
  /\ (forall n b cb prevSlot b1 blk1 currSlot,
        read (Z.of_nat (S n) - 1) = Ok (b, cb, prevSlot) ->
        Uint64 target <= Uint64 cb ->
        read (Z.of_nat (S n)) = Ok (b1, blk1, currSlot) ->
        ((0 < b1)%Q ->
         scanCheckpoints m holder target islot (S n)
         = Err "proof of nil has a balance value"%string)
        /\ (~ (0 < b1)%Q -> 0 < Uint64 blk1 ->
            scanCheckpoints m holder target islot (S n)
            = Err "proof of nil has a block value"%string)).
Proof.
  split.
  - intros count b last slot b2 blk2 slot2 Hs Hr Hle Hn _ _.
    exact (GetProof_keys_first_branch count b last slot b2 blk2 slot2 Hs Hr Hle Hn).
  - intros n b cb prevSlot b1 blk1 currSlot Hr Hle Hc.
    rewrite (scanCheckpoints_hit n b cb prevSlot b1 blk1 currSlot Hr Hle Hc).
    split.
    + intros Hpos. apply Qgt_alt in Hpos. rewrite Hpos. reflexivity.
    + intros Hnpos Hblk.
      destruct (b1 ?= 0 # 1)%Q eqn:Hcmp.
      * destruct (Z.ltb_spec 0 (Uint64 blk1)); [reflexivity|lia].
      * destruct (Z.ltb_spec 0 (Uint64 blk1)); [reflexivity|lia].
      * exfalso. apply Hnpos. apply Qgt_alt. exact Hcmp.
Qed.

End Selection.

(** ** The backward scan on the checkpoints 70, 80, 90, 100 *)

Section Bracketing.
Context `{Helpers} (m : Minime).
Variables (holder : Address) (islot : Z).

(** C1. With four checkpoints at blocks 70, 80, 90 and 100 (positions 1
    to 4, as read at the target block), [GetProof] for block 87 returns an
    error, whatever the slot before the array holds: it does not return the
    keys of positions 2 and 3. *)
Theorem GetProof_block_87 (b1 b2 b3 b4 : Q) (s1 s2 s3 s4 : Hash) :
  getMinimeArraySize m holder islot = Ok 4 ->
  getMinimeAtPosition m holder islot 1 (Some 87) = Ok (b1, 70, s1) ->
  getMinimeAtPosition m holder islot 2 (Some 87) = Ok (b2, 80, s2) ->
  getMinimeAtPosition m holder islot 3 (Some 87) = Ok (b3, 90, s3) ->
  getMinimeAtPosition m holder islot 4 (Some 87) = Ok (b4, 100, s4) ->
  exists e,
    GetProof_keys m holder 87 islot = Err e /\ GetProof m holder 87 islot = Err e.
Proof.
  intros Hs H1 H2 H3 H4.
  assert (exists e, GetProof_keys m holder 87 islot = Err e) as [e He].
  { rewrite (GetProof_keys_second_branch m holder islot 87 4 b4 100 s4 Hs H4)
      by reflexivity.
    change (Z.to_nat (Int (4 - 1))) with 3%nat.
    rewrite (scanCheckpoints_skip m holder islot 87 2 b2 80 s2 H2) by reflexivity.
    rewrite (scanCheckpoints_skip m holder islot 87 1 b1 70 s1 H1) by reflexivity.
    destruct (getMinimeAtPosition m holder islot 0 (Some 87))
      as [[[b0 cb] s0]|e0] eqn:H0.
    - destruct (Z.le_gt_cases (Uint64 87) (Uint64 cb)) as [Hle|Hgt].
      + rewrite (scanCheckpoints_hit m holder islot 87 0 b0 cb s0 b1 70 s1 H0 Hle H1).
        change (0 <? Uint64 70) with true.
        destruct (b1 ?= 0 # 1)%Q; eexists; reflexivity.
      + rewrite (scanCheckpoints_skip m holder islot 87 0 b0 cb s0 H0) by lia.
        eexists. reflexivity.
    - rewrite (scanCheckpoints_read_failure m holder islot 87 0 e0 H0).
      eexists. reflexivity. }
  exists e. split; [exact He|].
  unfold GetProof. rewrite He. reflexivity.
Qed.

(** C4. With the same four checkpoints, [GetProof] for block 50, older than
    all of them, stops at the first iteration of the backward scan (position
    2 is at block 80, 80 >= 50) and returns one of the two proof-of-nil
    errors, not "checkpoint not found".  That error is the one returned
    whenever the backward scan selects nothing. *)
Theorem GetProof_block_50 :
  (forall (b1 b2 b3 b4 : Q) (s1 s2 s3 s4 : Hash),
     getMinimeArraySize m holder islot = Ok 4 ->
     getMinimeAtPosition m holder islot 1 (Some 50) = Ok (b1, 70, s1) ->
     getMinimeAtPosition m holder islot 2 (Some 50) = Ok (b2, 80, s2) ->
     getMinimeAtPosition m holder islot 3 (Some 50) = Ok (b3, 90, s3) ->
     getMinimeAtPosition m holder islot 4 (Some 50) = Ok (b4, 100, s4) ->
     GetProof_keys m holder 50 islot = Err "proof of nil has a balance value"%string
     \/ GetProof_keys m holder 50 islot = Err "proof of nil has a block value"%string)
  /\ (forall target count b last slot,
        getMinimeArraySize m holder islot = Ok count ->
        getMinimeAtPosition m holder islot count (Some target) = Ok (b, last, slot) ->
        Uint64 target < Uint64 last ->
        scanCheckpoints m holder target islot (Z.to_nat (Int (count - 1))) = Ok [] ->
        GetProof_keys m holder target islot = Err "checkpoint not found"%string).
Proof.
  split.
  - intros b1 b2 b3 b4 s1 s2 s3 s4 Hs H1 H2 H3 H4.
    rewrite (GetProof_keys_second_branch m holder islot 50 4 b4 100 s4 Hs H4)
      by reflexivity.
    change (Z.to_nat (Int (4 - 1))) with 3%nat.
    rewrite (scanCheckpoints_hit m holder islot 50 2 b2 80 s2 b3 90 s3 H2
               ltac:(discriminate) H3).
    change (0 <? Uint64 90) with true.
    destruct (b3 ?= 0 # 1)%Q; auto.
  - intros target count b last slot Hs Hr Hlt Hscan.
    rewrite (GetProof_keys_second_branch m holder islot target count b last slot Hs Hr Hlt).
    rewrite Hscan. reflexivity.
Qed.

(** C10. When the backward scan reaches its last iteration ([i = 1]: the
    array has at least two entries, the last one is after the target, and the
    entries at positions 1 to [count - 2] are before it), it reads position 0,
    at the key [keccak256(mappingBaseSlot) + (0 - 1)], one word before the
    first entry of the array.  What that slot holds decides the outcome: a
    word that decodes with a block number at or after the target makes
    [GetProof] check position 1 and select the keys of positions 0 and 1, a
    lower one makes it fail with "checkpoint not found". *)
Theorem GetProof_scan_reads_position_zero (target count : Z) (b : Q) (last : Z)
    (slot : Hash) :
  getMinimeArraySize m holder islot = Ok count -> 2 <= count ->
  getMinimeAtPosition m holder islot count (Some target) = Ok (b, last, slot) ->
  Uint64 target < Uint64 last ->
  (forall p, 1 <= p < count - 1 ->
     exists bp cb s,
       getMinimeAtPosition m holder islot p (Some target) = Ok (bp, cb, s)
       /\ Uint64 cb < Uint64 target) ->
  SetBytes (arraySlot holder islot 0)
  = Z.abs (SetBytes (HashFromPosition (GetMapSlot holder islot)) + (0 - 1)) mod 2 ^ 256
  /\ (List.length (HashFromPosition (GetMapSlot holder islot)) = 32%nat ->
      SetBytes (HashFromPosition (GetMapSlot holder islot)) <> 0 ->
      SetBytes (arraySlot holder islot 0) + 1 = SetBytes (arraySlot holder islot 1))
  /\ (forall e,
        getMinimeAtPosition m holder islot 0 (Some target) = Err e ->
        GetProof_keys m holder target islot = Err ("cannot get minime: " ++ e)%string)
  /\ (forall b0 cb s0,
        getMinimeAtPosition m holder islot 0 (Some target) = Ok (b0, cb, s0) ->
        (exists value,
           erc20.EthCli_StorageAt (erc20_ m) (erc20.TokenAddr (erc20_ m))
             (arraySlot holder islot 0) (Some target) = Ok value)
        /\ (Uint64 cb < Uint64 target ->
            GetProof_keys m holder target islot = Err "checkpoint not found"%string)
        /\ (Uint64 target <= Uint64 cb ->
            forall b1 blk1 s1,
              getMinimeAtPosition m holder islot 1 (Some target) = Ok (b1, blk1, s1) ->
              ~ (0 < b1)%Q -> Uint64 blk1 = 0 ->
              GetProof_keys m holder target islot
              = Ok [arraySlot holder islot 0; arraySlot holder islot 1])).
Proof.
  intros Hs Hcount Hr Hlt Hbelow.
  pose proof (getMinimeArraySize_range m holder islot count Hs) as Hrange.
  assert (GetProof_keys m holder target islot
          = match scanCheckpoints m holder target islot 1 with
            | Ok [] => Err "checkpoint not found"%string
            | r => r
            end) as Hkeys.
  { rewrite (GetProof_keys_second_branch m holder islot target count b last slot Hs Hr Hlt).
    rewrite Int_small by lia.
    rewrite (scanCheckpoints_skip_to m holder islot target 1 (Z.to_nat (count - 1)));
      [reflexivity|lia|].
    intros p Hp. apply Hbelow. lia. }
  split; [|split; [|split]].
  - rewrite arraySlot_value. reflexivity.
  - intros Hlen Hnz. rewrite !arraySlot_value.
    pose proof (SetBytes_range (HashFromPosition (GetMapSlot holder islot))) as Hv.
    rewrite Hlen in Hv. change (256 ^ Z.of_nat 32) with (2 ^ 256) in Hv.
    change (Int (0 - 1)) with (-1). change (Int (1 - 1)) with 0.
    rewrite Z.abs_eq by lia. rewrite Z.abs_eq by lia.
    rewrite !Z.mod_small by lia. lia.
  - intros e He. rewrite Hkeys.
    rewrite (scanCheckpoints_read_failure m holder islot target 0 e He). reflexivity.
  - intros b0 cb s0 H0. split; [|split].
    + destruct (getMinimeAtPosition_inv m holder islot 0 (Some target) b0 cb s0 H0)
        as (token & value & ib & _ & Hv & _).
      exists value. exact Hv.
    + intros Hcb. rewrite Hkeys.
      rewrite (scanCheckpoints_skip m holder islot target 0 b0 cb s0 H0 Hcb).
      reflexivity.
    + intros Hcb b1 blk1 s1 H1 Hb1 Hblk1. rewrite Hkeys.
      rewrite (scanCheckpoints_hit m holder islot target 0 b0 cb s0 b1 blk1 s1 H0 Hcb H1).
      rewrite Hblk1. cbn [Z.ltb Z.compare].
      apply getMinimeAtPosition_slot in H0, H1. subst s0 s1.
      destruct (b1 ?= 0 # 1)%Q eqn:Hcmp; try reflexivity.
      exfalso. apply Hb1. apply Qgt_alt. exact Hcmp.
Qed.

End Bracketing.

(** ** The selection on concrete nodes *)

Section SelectionCases.
Import Fixture Nodes.

Lemma GetProof_block_87_witness :
  exists e,
    GetProof_keys fourCheckpoints holder0 87 3 = Err e
    /\ GetProof fourCheckpoints holder0 87 3 = Err e.
Proof.
  assert (getMinimeArraySize fourCheckpoints holder0 3 = Ok 4) as Hs
    by (vm_compute; reflexivity).
  assert (getMinimeAtPosition fourCheckpoints holder0 3 1 (Some 87)
          = Ok (5 # 1, 70, entryKey 3 1)) as H1 by (vm_compute; reflexivity).
  assert (getMinimeAtPosition fourCheckpoints holder0 3 2 (Some 87)
          = Ok (6 # 1, 80, entryKey 3 2)) as H2 by (vm_compute; reflexivity).
  assert (getMinimeAtPosition fourCheckpoints holder0 3 3 (Some 87)
          = Ok (7 # 1, 90, entryKey 3 3)) as H3 by (vm_compute; reflexivity).
  assert (getMinimeAtPosition fourCheckpoints holder0 3 4 (Some 87)
          = Ok (8 # 1, 100, entryKey 3 4)) as H4 by (vm_compute; reflexivity).
  exact (GetProof_block_87 fourCheckpoints holder0 3 _ _ _ _ _ _ _ _ Hs H1 H2 H3 H4).
Defined.

(** What [GetProof] returns for block 87: on the four checkpoints, "checkpoint
    not found"; on the node with history, where positions 3 and 4 are still
    empty at block 87, the keys of positions 4 and 5. *)
Example GetProof_block_87_outcomes :
  GetProof_keys fourCheckpoints holder0 87 3 = Err "checkpoint not found"%string
  /\ GetProof_keys fourCheckpointsHistory holder0 87 3
     = Ok [entryKey 3 4; entryKey 3 5]
  /\ entryKey 3 4 <> entryKey 3 2.
Proof.
  split; [vm_compute; reflexivity|].
  split; [vm_compute; reflexivity|].
  vm_compute. discriminate.
Qed.

Lemma GetProof_block_50_witness :
  (GetProof_keys fourCheckpoints holder0 50 3
   = Err "proof of nil has a balance value"%string
   \/ GetProof_keys fourCheckpoints holder0 50 3
      = Err "proof of nil has a block value"%string)
  /\ GetProof_keys fourCheckpoints holder0 87 3 = Err "checkpoint not found"%string.
Proof.
  assert (getMinimeArraySize fourCheckpoints holder0 3 = Ok 4) as Hs
    by (vm_compute; reflexivity).
  split.
  - assert (getMinimeAtPosition fourCheckpoints holder0 3 1 (Some 50)
            = Ok (5 # 1, 70, entryKey 3 1)) as H1 by (vm_compute; reflexivity).
    assert (getMinimeAtPosition fourCheckpoints holder0 3 2 (Some 50)
            = Ok (6 # 1, 80, entryKey 3 2)) as H2 by (vm_compute; reflexivity).
    assert (getMinimeAtPosition fourCheckpoints holder0 3 3 (Some 50)
            = Ok (7 # 1, 90, entryKey 3 3)) as H3 by (vm_compute; reflexivity).
    assert (getMinimeAtPosition fourCheckpoints holder0 3 4 (Some 50)
            = Ok (8 # 1, 100, entryKey 3 4)) as H4 by (vm_compute; reflexivity).
    exact (proj1 (GetProof_block_50 fourCheckpoints holder0 3)
             _ _ _ _ _ _ _ _ Hs H1 H2 H3 H4).
  - assert (getMinimeAtPosition fourCheckpoints holder0 3 4 (Some 87)
            = Ok (8 # 1, 100, entryKey 3 4)) as H4 by (vm_compute; reflexivity).
    assert (scanCheckpoints fourCheckpoints holder0 87 3 (Z.to_nat (Int (4 - 1)))
            = Ok []) as Hscan by (vm_compute; reflexivity).
    exact (proj2 (GetProof_block_50 fourCheckpoints holder0 3)
             87 4 _ 100 _ Hs H4 ltac:(reflexivity) Hscan).
Defined.

(** What [GetProof] returns for block 50: on the four checkpoints, a
    proof-of-nil error; on the node with history, where no checkpoint is
    written yet at block 50, the keys of positions 4 and 5. *)
Example GetProof_block_50_outcome :
  GetProof_keys fourCheckpoints holder0 50 3
  = Err "proof of nil has a balance value"%string
  /\ GetProof_keys fourCheckpointsHistory holder0 50 3
     = Ok [entryKey 3 4; entryKey 3 5].
Proof. split; vm_compute; reflexivity. Qed.

Lemma GetProof_at_or_beyond_newest_witness :
  (GetProof_keys oneCheckpoint holder0 105 3 = Ok [entryKey 3 1; entryKey 3 (1 + 1)]
   /\ GetProof oneCheckpoint holder0 105 3
      = erc20.GetProof (erc20_ oneCheckpoint) [entryKey 3 1; entryKey 3 (1 + 1)]
          (Some 105))
  /\ (GetProof_keys nextUnreadable holder0 105 3 = Err "connection reset"%string
      /\ GetProof nextUnreadable holder0 105 3 = Err "connection reset"%string).
Proof.
  split.
  - assert (getMinimeArraySize oneCheckpoint holder0 3 = Ok 1) as Hs
      by (vm_compute; reflexivity).
    assert (getMinimeAtPosition oneCheckpoint holder0 3 1 (Some 105)
            = Ok (8 # 1, 100, entryKey 3 1)) as H1 by (vm_compute; reflexivity).
    assert (getMinimeAtPosition oneCheckpoint holder0 3 (1 + 1) (Some 105)
            = Ok (0 # 1, 0, entryKey 3 2)) as H2 by (vm_compute; reflexivity).
    exact (proj1 (GetProof_at_or_beyond_newest oneCheckpoint holder0 3 105 1 _ 100 _
                    Hs H1 ltac:(lia) ltac:(lia)) _ H2).
  - assert (getMinimeArraySize nextUnreadable holder0 3 = Ok 1) as Hs
      by (vm_compute; reflexivity).
    assert (getMinimeAtPosition nextUnreadable holder0 3 1 (Some 105)
            = Ok (8 # 1, 100, entryKey 3 1)) as H1 by (vm_compute; reflexivity).
    assert (getMinimeAtPosition nextUnreadable holder0 3 (1 + 1) (Some 105)
            = Err "connection reset"%string) as H2 by (vm_compute; reflexivity).
    exact (proj2 (GetProof_at_or_beyond_newest nextUnreadable holder0 3 105 1 _ 100 _
                    Hs H1 ltac:(lia) ltac:(lia)) _ H2).
Defined.

(** C3, as stated, fails: the only checkpoint is at block 100 <= 105, but
    the word at position 2 cannot be read and [GetProof] returns that
    failure instead of the keys of positions 1 and 2. *)
Lemma GetProof_next_read_failure :
  getMinimeArraySize nextUnreadable holder0 3 = Ok 1
  /\ getMinimeAtPosition nextUnreadable holder0 3 1 (Some 105)
     = Ok (8 # 1, 100, entryKey 3 1)
  /\ 100 <= 105
  /\ GetProof_keys nextUnreadable holder0 105 3 = Err "connection reset"%string
  /\ GetProof nextUnreadable holder0 105 3 = Err "connection reset"%string.
Proof.
  split; [vm_compute; reflexivity|].
  split; [vm_compute; reflexivity|].
  split; [lia|].
  split; vm_compute; reflexivity.
Qed.

(** Block numbers are compared by their low 64 bits: the target
    [2 ^ 64 + 50] is after the only checkpoint, at block 100, but it is
    compared as 50 and [GetProof] goes through the backward scan. *)
Example GetProof_compares_low_64_bits :
  getMinimeAtPosition oneCheckpoint holder0 3 1 (Some (2 ^ 64 + 50))
  = Ok (8 # 1, 100, entryKey 3 1)
  /\ GetProof_keys oneCheckpoint holder0 (2 ^ 64 + 50) 3
     = Err "checkpoint not found"%string.
Proof. split; vm_compute; reflexivity. Qed.

Lemma GetProof_nil_check_only_in_scan_witness :
  GetProof_keys nextNotEmpty holder0 105 3 = Ok [entryKey 3 1; entryKey 3 2]
  /\ scanCheckpoints fourCheckpoints holder0 50 3 3
     = Err "proof of nil has a balance value"%string.
Proof.
  split.
  - assert (getMinimeArraySize nextNotEmpty holder0 3 = Ok 1) as Hs
      by (vm_compute; reflexivity).
    assert (getMinimeAtPosition nextNotEmpty holder0 3 1 (Some 105)
            = Ok (8 # 1, 100, entryKey 3 1)) as H1 by (vm_compute; reflexivity).
    assert (getMinimeAtPosition nextNotEmpty holder0 3 (1 + 1) (Some 105)
            = Ok (5 # 1, 200, entryKey 3 2)) as H2 by (vm_compute; reflexivity).
    exact (proj1 (GetProof_nil_check_only_in_scan nextNotEmpty holder0 3 105)
             1 _ 100 _ _ 200 _ Hs H1 ltac:(vm_compute; discriminate) H2
             ltac:(reflexivity) ltac:(lia)).
  - assert (getMinimeAtPosition fourCheckpoints holder0 3 (Z.of_nat 3 - 1) (Some 50)
            = Ok (6 # 1, 80, entryKey 3 2)) as H2 by (vm_compute; reflexivity).
    assert (getMinimeAtPosition fourCheckpoints holder0 3 (Z.of_nat 3) (Some 50)
            = Ok (7 # 1, 90, entryKey 3 3)) as H3 by (vm_compute; reflexivity).
    exact (proj1 (proj2 (GetProof_nil_check_only_in_scan fourCheckpoints holder0 3 50)
                    2%nat _ 80 _ _ 90 _ H2 ltac:(vm_compute; discriminate) H3)
             ltac:(reflexivity)).
Defined.

Lemma GetProof_scan_reads_position_zero_witness :
  SetBytes (entryKey 3 0) + 1 = SetBytes (entryKey 3 1)
  /\ GetProof_keys wordBeforeArray holder0 87 3 = Ok [entryKey 3 0; entryKey 3 1].
Proof.
  assert (getMinimeArraySize wordBeforeArray holder0 3 = Ok 4) as Hs
    by (vm_compute; reflexivity).
  assert (getMinimeAtPosition wordBeforeArray holder0 3 4 (Some 87)
          = Ok (8 # 1, 100, entryKey 3 4)) as H4 by (vm_compute; reflexivity).
  assert (forall p, 1 <= p < 4 - 1 ->
            exists bp cb s,
              getMinimeAtPosition wordBeforeArray holder0 3 p (Some 87) = Ok (bp, cb, s)
              /\ Uint64 cb < Uint64 87) as Hbelow.
  { intros p Hp. assert (p = 1 \/ p = 2) as [-> | ->] by lia.
    - exists (0 # 1), 0, (entryKey 3 1). split; vm_compute; reflexivity.
    - exists (6 # 1), 80, (entryKey 3 2). split; vm_compute; reflexivity. }
  assert (getMinimeAtPosition wordBeforeArray holder0 3 0 (Some 87)
          = Ok (0 # 1, 95, entryKey 3 0)) as H0 by (vm_compute; reflexivity).
  assert (getMinimeAtPosition wordBeforeArray holder0 3 1 (Some 87)
          = Ok (0 # 1, 0, entryKey 3 1)) as H1 by (vm_compute; reflexivity).
  split; [vm_compute; reflexivity|].
  destruct (GetProof_scan_reads_position_zero wordBeforeArray holder0 3 87 4 _ 100 _
              Hs ltac:(lia) H4 ltac:(reflexivity) Hbelow) as (_ & _ & _ & Hzero).
  destruct (Hzero _ _ _ H0) as (_ & _ & Hsel).
  exact (Hsel ltac:(vm_compute; discriminate) _ _ _ H1
           ltac:(vm_compute; discriminate) ltac:(reflexivity)).
Defined.

End SelectionCases.

(** * Further properties of the two files *)

(** ** erc20: metadata failures and the proof request *)

Section Erc20Facts.
Import erc20 Variants.

(** X1. [GetTokenData] reports the first call that fails for good, in the
    order name, symbol, decimals, total supply, with the prefix of that call
    in front of the failure's text. *)
Theorem GetTokenData_first_failure (w : ERC20Token) :
  (forall e, TokenName w = Err e -> Contains e emptyMarker = false ->
     GetTokenData w = Err ("unable to get token name data: " ++ e)%string)
  /\ (tolerated (TokenName w) ->
      forall e, TokenSymbol w = Err e -> Contains e emptyMarker = false ->
      GetTokenData w = Err ("unable to get token symbol data: " ++ e)%string)
  /\ (tolerated (TokenName w) -> tolerated (TokenSymbol w) ->
      forall e, TokenDecimals w = Err e ->
      GetTokenData w = Err ("unable to get token decimals data: " ++ e)%string)
  /\ (tolerated (TokenName w) -> tolerated (TokenSymbol w) ->
      forall d e, TokenDecimals w = Ok d -> TokenTotalSupply w = Err e ->
      GetTokenData w = Err ("unable to get token supply data: " ++ e)%string).
Proof.
  unfold GetTokenData, tolerated. repeat split.
  - intros e -> ->. reflexivity.
  - intros Hn e -> ->.
    destruct (TokenName w) as [n|en]; [|rewrite Hn]; reflexivity.
  - intros Hn Hs e ->.
    destruct (TokenName w) as [n|en]; [|rewrite Hn];
      (destruct (TokenSymbol w) as [y|ey]; [|rewrite Hs]); reflexivity.
  - intros Hn Hs d e -> ->.
    destruct (TokenName w) as [n|en]; [|rewrite Hn];
      (destruct (TokenSymbol w) as [y|ey]; [|rewrite Hs]); reflexivity.
Qed.

Lemma GetTokenData_first_failure_witness :
  GetTokenData brokenToken
  = Err "unable to get token name data: execution reverted"%string
  /\ GetTokenData (erc20_ symbolFails)
     = Err "unable to get token symbol data: execution reverted"%string
  /\ GetTokenData (erc20_ decimalsFail)
     = Err "unable to get token decimals data: execution reverted"%string
  /\ GetTokenData (erc20_ supplyFails)
     = Err "unable to get token supply data: execution reverted"%string.
Proof.
  split; [|split; [|split]].
  - exact (proj1 (GetTokenData_first_failure brokenToken) _ eq_refl eq_refl).
  - exact (proj1 (proj2 (GetTokenData_first_failure (erc20_ symbolFails)))
             eq_refl _ eq_refl eq_refl).
  - exact (proj1 (proj2 (proj2 (GetTokenData_first_failure (erc20_ decimalsFail))))
             I I _ eq_refl).
  - exact (proj2 (proj2 (proj2 (GetTokenData_first_failure (erc20_ supplyFails))))
             I I _ _ eq_refl eq_refl).
Defined.

(** What a returned proof is made of. *)
Lemma erc20_GetProof_inv (w : ERC20Token) (keys : list (list byte))
    (block : option Z) (p : StorageProof) :
  erc20.GetProof w keys block = Ok p ->
  exists blockData resp,
    EthCli_BlockByNumber w block = Ok blockData
    /\ RPCCli_eth_getProof w (TokenAddr w) keys block = Ok resp
    /\ StateRoot p = Root blockData
    /\ Height p = Number blockData
    /\ StorageProofs p = StorageProofs resp.
Proof.
  unfold erc20.GetProof.
  destruct (EthCli_BlockByNumber w block) as [blockData|e]; [|discriminate].
  cbn [bind].
  destruct (RPCCli_eth_getProof w (TokenAddr w) keys block) as [resp|e];
    [|discriminate].
  cbn [bind]. intros [= <-]. exists blockData, resp. auto.
Qed.

(** X2. [erc20.GetProof] asks for the block header first: its failure is
    returned whatever the proof request would answer; then the failure of the
    proof request is returned.  A proof that is returned carries the state
    root and the number of the block header, not those of the node's answer,
    and the storage entries of the node's answer. *)
Theorem erc20_GetProof_header (w : ERC20Token) (keys : list (list byte))
    (block : option Z) :
  (forall e, EthCli_BlockByNumber w block = Err e ->
     erc20.GetProof w keys block = Err e)
  /\ (forall blockData e,
        EthCli_BlockByNumber w block = Ok blockData ->
        RPCCli_eth_getProof w (TokenAddr w) keys block = Err e ->
        erc20.GetProof w keys block = Err e)
  /\ (forall p,
        erc20.GetProof w keys block = Ok p ->
        exists blockData resp,
          EthCli_BlockByNumber w block = Ok blockData
          /\ RPCCli_eth_getProof w (TokenAddr w) keys block = Ok resp
          /\ StateRoot p = Root blockData
          /\ Height p = Number blockData
          /\ StorageProofs p = StorageProofs resp).
Proof.
  split; [|split].
  - unfold erc20.GetProof. intros e ->. reflexivity.
  - unfold erc20.GetProof. intros blockData e -> ->. reflexivity.
  - intros p. apply erc20_GetProof_inv.
Qed.

Lemma erc20_GetProof_header_witness :
  erc20.GetProof (erc20_ headerUnavailable) [Fixture.entryKey 3 1] (Some 105)
  = Err "header not found"%string
  /\ erc20.GetProof (erc20_ proofRefused) [Fixture.entryKey 3 1] (Some 105)
     = Err "missing trie node"%string
  /\ exists p,
       erc20.GetProof (erc20_ proofWithOwnRoot) [Fixture.entryKey 3 1] (Some 105) = Ok p
       /\ StateRoot p = be_bytes 32 0xabcd /\ Height p = 105.
Proof.
  split; [|split].
  - exact (proj1 (erc20_GetProof_header (erc20_ headerUnavailable) _ (Some 105))
             _ eq_refl).
  - exact (proj1 (proj2 (erc20_GetProof_header (erc20_ proofRefused) _ (Some 105)))
             _ _ eq_refl eq_refl).
  - eexists. split; [reflexivity|].
    destruct (proj2 (proj2 (erc20_GetProof_header (erc20_ proofWithOwnRoot)
                              [Fixture.entryKey 3 1] (Some 105))) _ eq_refl)
      as (blockData & resp & Hb & _ & Hroot & Hheight & _).
    injection Hb as <-. split; assumption.
Defined.

End Erc20Facts.

(** ** minime: what [DiscoverSlot] returns *)

Section DiscoverSlotOutcomes.
Context `{Helpers} (m : Minime).
Variable holder : Address.

(** The three ways an iteration of the discovery loop ends. *)
Lemma discoverLoop_step (balance : Q) (amount : option Q) (k : nat) :
  let c := maxIterationsForDiscover - Z.of_nat (S k) in
  (exists e, getMinimeArraySize m holder c = Err e
             /\ discoverLoop m holder balance amount (S k) = Err e)
  \/ (exists a, qualifies m holder balance c a
                /\ discoverLoop m holder balance amount (S k) = Ok (c, Some a))
  \/ (lengthReadable m holder c
      /\ ~ (exists a, qualifies m holder balance c a)
      /\ exists amount',
           discoverLoop m holder balance amount (S k)
           = discoverLoop m holder balance amount' k).
Proof.
  intros c.
  destruct (getMinimeArraySize m holder c) as [size|e] eqn:Hs.
  - destruct (topEntryMatch m holder balance c) as [a|] eqn:Ht.
    + right. left. exists a. apply topEntryMatch_qualifies in Ht.
      split; [exact Ht|]. apply discoverLoop_accept. exact Ht.
    + right. right. apply topEntryMatch_None in Ht.
      assert (lengthReadable m holder c) as Hl by (exists size; exact Hs).
      split; [exact Hl|]. split; [exact Ht|].
      apply discoverLoop_continue; assumption.
  - left. exists e. split; [reflexivity|]. apply discoverLoop_abort. exact Hs.
Qed.

(** Every candidate before the one the loop leaves with was read and did
    not qualify. *)
Lemma discoverLoop_before (balance : Q) (k : nat) (amount : option Q) (i : Z)
    (a : option Q) :
  discoverLoop m holder balance amount k = Ok (i, a) -> i <> -1 ->
  forall j, maxIterationsForDiscover - Z.of_nat k <= j < i ->
    lengthReadable m holder j /\ ~ (exists a', qualifies m holder balance j a').
Proof.
  revert amount. induction k as [|k IH]; intros amount Hl Hi j Hj.
  - injection Hl as <- _. contradiction.
  - destruct (discoverLoop_step balance amount k)
      as [(e & _ & He)|[(a' & _ & Ha)|(Hr & Hn & amount' & Hc)]].
    + rewrite He in Hl. discriminate.
    + rewrite Ha in Hl.
      assert (maxIterationsForDiscover - Z.of_nat (S k) = i) by congruence. lia.
    + rewrite Hc in Hl.
      destruct (Z.eq_dec j (maxIterationsForDiscover - Z.of_nat (S k))) as [->|Hne].
      * split; assumption.
      * apply (IH amount' Hl Hi). lia.
Qed.

(** X3. The shapes of what [DiscoverSlot] returns: an index within the
    ceiling with an amount and no error; or no amount and an error, which is
    the failure of the balance call or [ErrSlotNotFound] with index -1, or the
    failure of an array-length read with index 0. *)
Theorem DiscoverSlot_outcomes (i : Z) (a : option Q) (err : option error) :
  DiscoverSlot m holder = (i, a, err) ->
  (err = None /\ 0 <= i < maxIterationsForDiscover /\ exists amount, a = Some amount)
  \/ (a = None /\ i = -1 /\
      (err = Some ErrSlotNotFound
       \/ exists e, err = Some e /\ erc20.Balance (erc20_ m) holder = Err e))
  \/ (a = None /\ i = 0 /\
      exists e c, err = Some e /\ 0 <= c < maxIterationsForDiscover
                  /\ getMinimeArraySize m holder c = Err e).
Proof.
  unfold DiscoverSlot.
  destruct (erc20.Balance (erc20_ m) holder) as [balance|e] eqn:Hb.
  - change (Z.to_nat maxIterationsForDiscover) with 20%nat.
    destruct (discoverLoop m holder balance None 20) as [[index amount]|e] eqn:Hl;
      unfold discoverReturn.
    + destruct (Z.eqb_spec index (-1)) as [->|Hne].
      * intros [= <- <- <-]. right. left. auto.
      * intros [= <- <- <-]. left.
        apply discoverLoop_sound in Hl as [?|[Hrange (a' & -> & _)]]; [contradiction|].
        unfold maxIterationsForDiscover in *. split; [reflexivity|].
        split; [lia|]. exists a'. reflexivity.
    + intros [= <- <- <-]. right. right.
      destruct (discoverLoop_error m holder balance 20 None e Hl) as (c & Hc & He).
      split; [reflexivity|]. split; [reflexivity|].
      exists e, c. unfold maxIterationsForDiscover in *.
      split; [reflexivity|]. split; [lia|exact He].
  - intros [= <- <- <-]. right. left.
    split; [reflexivity|]. split; [reflexivity|].
    right. exists e. auto.
Qed.

(** A returned index comes from the loop, after the balance call. *)
Lemma DiscoverSlot_selected (i : Z) (a : option Q) :
  DiscoverSlot m holder = (i, a, None) ->
  exists balance,
    erc20.Balance (erc20_ m) holder = Ok balance
    /\ discoverLoop m holder balance None 20 = Ok (i, a) /\ i <> -1.
Proof.
  unfold DiscoverSlot.
  destruct (erc20.Balance (erc20_ m) holder) as [balance|e]; [|discriminate].
  change (Z.to_nat maxIterationsForDiscover) with 20%nat.
  destruct (discoverLoop m holder balance None 20) as [[index amount]|e] eqn:Hl;
    [|discriminate].
  unfold discoverReturn.
  destruct (Z.eqb_spec index (-1)) as [|Hne]; [discriminate|].
  intros [= -> ->]. exists balance. auto.
Qed.

(** X4. An index that [DiscoverSlot] returns without error is the smallest
    candidate that qualifies: the balance call returned, the returned amount
    is the decoded balance of the candidate's top entry and equals the
    current balance, and every smaller candidate had a readable length word
    and did not qualify. *)
Theorem DiscoverSlot_returns_smallest (i : Z) (a : option Q) :
  DiscoverSlot m holder = (i, a, None) ->
  exists balance amount,
    erc20.Balance (erc20_ m) holder = Ok balance
    /\ a = Some amount
    /\ qualifies m holder balance i amount
    /\ (amount == balance)%Q
    /\ forall j, 0 <= j < i ->
         lengthReadable m holder j
         /\ ~ (exists a', qualifies m holder balance j a').
Proof.
  intros Hsel.
  destruct (DiscoverSlot_selected i a Hsel) as (balance & Hb & Hl & Hne).
  pose proof (discoverLoop_before balance 20 None i a Hl Hne) as Hbefore.
  apply discoverLoop_sound in Hl as [?|[_ (a' & -> & Hq)]]; [contradiction|].
  exists balance, a'.
  split; [exact Hb|]. split; [reflexivity|]. split; [exact Hq|].
  split.
  - destruct Hq as (size & block & slot & _ & _ & _ & _ & Heq). exact Heq.
  - intros j Hj. apply Hbefore. unfold maxIterationsForDiscover. lia.
Qed.

(** X5. When the token metadata cannot be fetched (for instance the total
    supply call fails), every checkpoint read fails; [DiscoverSlot] then
    selects no candidate, and if the balance call and the twenty array-length
    reads return, it reports [ErrSlotNotFound], not the metadata failure. *)
Theorem DiscoverSlot_metadata_failure (e : error) :
  erc20.GetTokenData (erc20_ m) = Err e ->
  (forall islot position block,
     getMinimeAtPosition m holder islot position block = Err e)
  /\ (forall i a, DiscoverSlot m holder <> (i, a, None))
  /\ (forall balance,
        erc20.Balance (erc20_ m) holder = Ok balance ->
        (forall j, 0 <= j < maxIterationsForDiscover -> lengthReadable m holder j) ->
        DiscoverSlot m holder = (-1, None, Some ErrSlotNotFound)).
Proof.
  intros He.
  assert (forall islot position block,
            getMinimeAtPosition m holder islot position block = Err e) as Hread.
  { intros. unfold getMinimeAtPosition. rewrite He. reflexivity. }
  assert (forall balance j, ~ (exists a, qualifies m holder balance j a)) as Hnq.
  { intros balance j (a & size & block & slot & _ & _ & Hr & _).
    rewrite Hread in Hr. discriminate. }
  split; [exact Hread|]. split.
  - intros i a Hsel.
    destruct (DiscoverSlot_selected i a Hsel) as (balance & _ & Hl & Hne).
    apply discoverLoop_sound in Hl as [?|[_ (a' & _ & Hq)]]; [contradiction|].
    apply (Hnq balance i). exists a'. exact Hq.
  - intros balance Hb Hlen. unfold DiscoverSlot. rewrite Hb.
    change (Z.to_nat maxIterationsForDiscover) with 20%nat.
    destruct (discoverLoop_none m holder balance 20 None) as [amount' ->];
      [|reflexivity].
    intros j Hj. split; [|apply Hnq].
    apply Hlen. unfold maxIterationsForDiscover in *. lia.
Qed.

End DiscoverSlotOutcomes.

(** ** minime: the keys of the array entries *)

Lemma byteZ_inj (x y : byte) : byteZ x = byteZ y -> x = y.
Proof.
  unfold byteZ. intros Hxy.
  assert (Byte.to_N x = Byte.to_N y) as E by lia.
  pose proof (Byte.of_to_N x) as Hx. rewrite E, Byte.of_to_N in Hx. congruence.
Qed.

Lemma be_bytes_length (n : nat) (v : Z) : List.length (be_bytes n v) = n.
Proof.
  revert v. induction n as [|n IH]; intros v; [reflexivity|].
  cbn [be_bytes]. rewrite length_app, IH. simpl. lia.
Qed.

(** Byte strings of one length are determined by the integer they encode. *)
Lemma SetBytes_inj (xs ys : list byte) :
  List.length xs = List.length ys -> SetBytes xs = SetBytes ys -> xs = ys.
Proof.
  revert ys. induction xs as [|x xs IH]; intros [|y ys] Hlen Hv;
    try discriminate; [reflexivity|].
  injection Hlen as Hlen. rewrite !SetBytes_cons, <- Hlen in Hv.
  pose proof (SetBytes_range xs) as Hx. pose proof (SetBytes_range ys) as Hy.
  rewrite <- Hlen in Hy.
  pose proof (byteZ_range x) as Hbx. pose proof (byteZ_range y) as Hby.
  set (P := 256 ^ Z.of_nat (List.length xs)) in *.
  assert (byteZ x = byteZ y) as Hb.
  { apply (f_equal (fun z => z / P)) in Hv.
    rewrite !Z.div_add_l, !Z.div_small in Hv by lia. lia. }
  assert (SetBytes xs = SetBytes ys) as Hr by (rewrite Hb in Hv; lia).
  f_equal; [apply byteZ_inj; exact Hb|apply IH; assumption].
Qed.

Section EntryKeys.
Context `{Helpers}.
Variables (holder : Address) (islot : Z).

Local Notation "'base'" := (SetBytes (HashFromPosition (GetMapSlot holder islot))).

(** The key of a position, in closed form. *)
Lemma arraySlot_be_bytes (position : Z) :
  arraySlot holder islot position = be_bytes 32 (Z.abs (base + Int (position - 1))).
Proof.
  apply SetBytes_inj.
  - rewrite arraySlot_length, be_bytes_length. reflexivity.
  - rewrite arraySlot_value, SetBytes_be_bytes. reflexivity.
Qed.

(** X6. The key of the entry at a position from 1 to [2 ^ 63] is the
    32-byte big-endian encoding of the hash of the mapping slot plus
    [position - 1], reduced modulo [2 ^ 256]: an array that runs over the end
    of the key space wraps around to key 0. *)
Theorem arraySlot_entry (position : Z) :
  1 <= position <= 2 ^ 63 ->
  arraySlot holder islot position = be_bytes 32 (base + (position - 1))
  /\ List.length (arraySlot holder islot position) = 32%nat
  /\ SetBytes (arraySlot holder islot position) = (base + (position - 1)) mod 2 ^ 256.
Proof.
  intros Hp.
  pose proof (SetBytes_range (HashFromPosition (GetMapSlot holder islot))) as Hb.
  rewrite arraySlot_be_bytes, be_bytes_length, SetBytes_be_bytes.
  rewrite Int_small by lia. rewrite Z.abs_eq by lia. auto.
Qed.

(** The keys of two consecutive positions differ. *)
Lemma arraySlot_succ_neq (position : Z) :
  - 2 ^ 63 <= position < 2 ^ 63 ->
  arraySlot holder islot position <> arraySlot holder islot (position + 1).
Proof.
  intros Hp Heq. apply (f_equal SetBytes) in Heq.
  rewrite !arraySlot_value in Heq.
  pose proof (SetBytes_range (HashFromPosition (GetMapSlot holder islot))) as Hb.
  replace (position + 1 - 1) with position in Heq by lia.
  rewrite (Int_small position) in Heq by lia.
  set (v := base) in *.
  assert (exists d, 0 < d < 2 ^ 256 /\
            (Z.abs (v + Int (position - 1)) = Z.abs (v + position) + d
             \/ Z.abs (v + position) = Z.abs (v + Int (position - 1)) + d))
    as (d & Hd & Hcases).
  { destruct (Z.eq_dec position (- 2 ^ 63)) as [->|Hne].
    - change (Int (- 2 ^ 63 - 1)) with (2 ^ 63 - 1).
      destruct (Z.le_gt_cases (2 ^ 63) v).
      + exists (2 ^ 64 - 1). split; [lia|]. left. lia.
      + destruct (Z.eq_dec v 0) as [->|Hv].
        * exists 1. split; [lia|]. right. lia.
        * exists (2 * v - 1). split; [lia|]. left. lia.
    - rewrite Int_small by lia. exists 1. split; [lia|]. lia. }
  clearbody v.
  set (x := Z.abs (v + Int (position - 1))) in *.
  set (y := Z.abs (v + position)) in *.
  pose proof (Z.div_mod x (2 ^ 256) ltac:(lia)) as Hx.
  pose proof (Z.div_mod y (2 ^ 256) ltac:(lia)) as Hy.
  rewrite Heq in Hx. lia.
Qed.

End EntryKeys.

(** ** minime: what [GetProof] selects *)

Section GetProofOutcomes.
Context `{Helpers} (m : Minime).
Variables (holder : Address) (islot target : Z).

Local Notation "'read' position" :=
  (getMinimeAtPosition m holder islot position (Some target))
  (at level 10, position at level 9).

Local Notation "'readBelow' position" :=
  (entryBelow m holder islot target position)
  (at level 10, position at level 9).

(** What the backward scan returns with: nothing, every iteration having
    read an entry below the target; or the keys of [i - 1] and [i] for the
    first [i] from the end whose predecessor is at or after the target, the
    entry at [i] being empty. *)
Lemma scanCheckpoints_sound (n : nat) (keys : list (list byte)) :
  scanCheckpoints m holder target islot n = Ok keys ->
  (keys = [] /\ forall j, 1 <= j <= Z.of_nat n -> readBelow (j - 1))
  \/ exists i,
       1 <= i <= Z.of_nat n
       /\ keys = [arraySlot holder islot (i - 1); arraySlot holder islot i]
       /\ (exists b cb s, read (i - 1) = Ok (b, cb, s) /\ Uint64 target <= Uint64 cb)
       /\ (exists b1 blk1 s1,
             read i = Ok (b1, blk1, s1) /\ ~ (0 < b1)%Q /\ Uint64 blk1 = 0)
       /\ forall j, i < j <= Z.of_nat n -> readBelow (j - 1).
Proof.
  induction n as [|n IH]; intros Hk.
  - injection Hk as <-. left. split; [reflexivity|]. intros j Hj. simpl in Hj. lia.
  - cbn [scanCheckpoints] in Hk.
    destruct (read (Z.of_nat (S n) - 1)) as [[[b cb] prevSlot]|e] eqn:Hr;
      [|discriminate].
    cbn [wrapErr bind] in Hk.
    destruct (Z.leb_spec (Uint64 target) (Uint64 cb)) as [Hle|Hlt].
    + destruct (read (Z.of_nat (S n))) as [[[b1 blk1] currSlot]|e] eqn:Hc;
        [|discriminate].
      cbn [bind] in Hk.
      assert (~ (0 < b1)%Q /\ Uint64 blk1 = 0 /\ keys = [prevSlot; currSlot])
        as (Hb1 & Hblk1 & ->).
      { pose proof (Z.mod_pos_bound (Z.abs blk1) (2 ^ 64) ltac:(lia)) as Hu.
        fold (Uint64 blk1) in Hu.
        destruct (b1 ?= 0 # 1)%Q eqn:Hcmp; try discriminate;
          (destruct (Z.ltb_spec 0 (Uint64 blk1)); [discriminate|]);
          injection Hk as <-;
          (split; [intros Hpos; apply Qgt_alt in Hpos; congruence|]);
          (split; [lia|reflexivity]). }
      right. exists (Z.of_nat (S n)). split; [lia|].
      split.
      { rewrite (getMinimeAtPosition_slot m _ _ _ _ _ _ _ Hr),
          (getMinimeAtPosition_slot m _ _ _ _ _ _ _ Hc). reflexivity. }
      split; [exists b, cb, prevSlot; auto|].
      split; [exists b1, blk1, currSlot; auto|].
      intros j Hj. lia.
    + assert (readBelow (Z.of_nat (S n) - 1)) as Hbelow
        by (exists b, cb, prevSlot; auto).
      destruct (IH Hk) as [[-> Hall]|(i & Hi & Hkeys & Hprev & Hcur & Hafter)].
      * left. split; [reflexivity|]. intros j Hj.
        destruct (Z.eq_dec j (Z.of_nat (S n))) as [->|Hne]; [exact Hbelow|].
        apply Hall. lia.
      * right. exists i. split; [lia|]. split; [exact Hkeys|].
        split; [exact Hprev|]. split; [exact Hcur|]. intros j Hj.
        destruct (Z.eq_dec j (Z.of_nat (S n))) as [->|Hne]; [exact Hbelow|].
        apply Hafter. lia.
Qed.

(** X7. The keys that [GetProof] selects are accounted for.  Either the
    entry at the last position [count] is at or before the target, the next
    position was read, and the keys are those of [count] and [count + 1]; or
    it is after the target and the keys are those of [i - 1] and [i], for the
    last [i] below [count] whose predecessor is at or after the target, the
    entry at [i] having no positive balance and a block number of 0. *)
Theorem GetProof_keys_selected (keys : list (list byte)) :
  GetProof_keys m holder target islot = Ok keys ->
  exists count b last slot,
    getMinimeArraySize m holder islot = Ok count
    /\ read count = Ok (b, last, slot)
    /\ ((Uint64 last <= Uint64 target
         /\ keys = [arraySlot holder islot count; arraySlot holder islot (count + 1)]
         /\ exists next, read (count + 1) = Ok next)
        \/ (Uint64 target < Uint64 last
            /\ exists i,
                 1 <= i <= Int (count - 1)
                 /\ keys = [arraySlot holder islot (i - 1); arraySlot holder islot i]
                 /\ (exists b0 cb s0,
                       read (i - 1) = Ok (b0, cb, s0) /\ Uint64 target <= Uint64 cb)
                 /\ (exists b1 blk1 s1,
                       read i = Ok (b1, blk1, s1) /\ ~ (0 < b1)%Q /\ Uint64 blk1 = 0)
                 /\ forall j, i < j <= Int (count - 1) -> readBelow (j - 1))).
Proof.
  intros Hk.
  destruct (getMinimeArraySize m holder islot) as [count|e] eqn:Hs.
  2:{ unfold GetProof_keys in Hk. rewrite Hs in Hk. discriminate. }
  destruct (read count) as [[[b last] slot]|e] eqn:Hr.
  2:{ unfold GetProof_keys in Hk. rewrite Hs in Hk. cbn [wrapErr bind] in Hk.
      rewrite Hr in Hk. discriminate. }
  exists count, b, last, slot. split; [reflexivity|]. split; [exact Hr|].
  destruct (Z.le_gt_cases (Uint64 last) (Uint64 target)) as [Hle|Hgt].
  - left. split; [exact Hle|].
    destruct (read (count + 1)) as [[[b2 blk2] slot2]|e] eqn:Hn.
    + rewrite (GetProof_keys_first_branch m holder islot target
                 count b last slot b2 blk2 slot2 Hs Hr Hle Hn) in Hk.
      injection Hk as <-.
      apply getMinimeAtPosition_slot in Hr, Hn. subst. split; [reflexivity|eauto].
    + exfalso. unfold GetProof_keys in Hk. rewrite Hs in Hk.
      cbn [wrapErr bind] in Hk. rewrite Hr in Hk. cbn [wrapErr bind] in Hk.
      destruct (Z.leb_spec (Uint64 last) (Uint64 target)); [|lia].
      rewrite getMinimeAtPosition_Int, Hn in Hk. discriminate.
  - right. split; [exact Hgt|].
    rewrite (GetProof_keys_second_branch m holder islot target
               count b last slot Hs Hr Hgt) in Hk.
    destruct (scanCheckpoints m holder target islot (Z.to_nat (Int (count - 1))))
      as [keys'|e] eqn:Hscan; [|discriminate].
    destruct (scanCheckpoints_sound _ keys' Hscan)
      as [[-> _]|(i & Hi & Hkeys & Hprev & Hcur & Hafter)]; [discriminate|].
    subst keys'. injection Hk as <-.
    exists i. split; [lia|]. split; [reflexivity|].
    split; [exact Hprev|]. split; [exact Hcur|].
    intros j Hj. apply Hafter. lia.
Qed.

(** The keys selected are those of two consecutive positions. *)
Lemma GetProof_keys_positions (keys : list (list byte)) :
  GetProof_keys m holder target islot = Ok keys ->
  exists position,
    - 2 ^ 63 <= position < 2 ^ 63
    /\ keys = [arraySlot holder islot position; arraySlot holder islot (position + 1)].
Proof.
  intros Hk.
  destruct (getMinimeArraySize m holder islot) as [count|e] eqn:Hs.
  2:{ unfold GetProof_keys in Hk. rewrite Hs in Hk. discriminate. }
  destruct (read count) as [[[b last] slot]|e] eqn:Hr.
  2:{ unfold GetProof_keys in Hk. rewrite Hs in Hk. cbn [wrapErr bind] in Hk.
      rewrite Hr in Hk. discriminate. }
  destruct (Z.le_gt_cases (Uint64 last) (Uint64 target)) as [Hle|Hgt].
  - exists count.
    split; [apply (getMinimeArraySize_range m holder islot); exact Hs|].
    unfold GetProof_keys in Hk. rewrite Hs in Hk.
    cbn [wrapErr bind] in Hk. rewrite Hr in Hk. cbn [wrapErr bind] in Hk.
    destruct (Z.leb_spec (Uint64 last) (Uint64 target)); [|lia].
    rewrite getMinimeAtPosition_Int in Hk.
    destruct (read (count + 1)) as [[[b2 blk2] slot2]|e] eqn:Hn; [|discriminate].
    injection Hk as <-.
    apply getMinimeAtPosition_slot in Hr, Hn. subst. reflexivity.
  - rewrite (GetProof_keys_second_branch m holder islot target
               count b last slot Hs Hr Hgt) in Hk.
    destruct (scanCheckpoints m holder target islot (Z.to_nat (Int (count - 1))))
      as [keys'|e] eqn:Hscan; [|discriminate].
    destruct (scanCheckpoints_keys m holder islot target _ keys' Hscan)
      as [->|(i & Hi & ->)]; [discriminate|].
    injection Hk as <-. exists (i - 1).
    pose proof (Int_range (count - 1)).
    split; [lia|]. replace (i - 1 + 1) with i by lia. reflexivity.
Qed.

(** X8. [GetProof] never asks for the proof of one key, or of the same key
    twice: the keys it selects are the keys of two consecutive positions, and
    they differ. *)
Theorem GetProof_keys_two_distinct (keys : list (list byte)) :
  GetProof_keys m holder target islot = Ok keys ->
  exists position,
    keys = [arraySlot holder islot position; arraySlot holder islot (position + 1)]
    /\ arraySlot holder islot position <> arraySlot holder islot (position + 1).
Proof.
  intros Hk.
  destruct (GetProof_keys_positions keys Hk) as (position & Hp & Hkeys).
  exists position. split; [exact Hkeys|].
  apply arraySlot_succ_neq. exact Hp.
Qed.

(** X9. Arrays of at most one entry.  When the length word reads as 1 or
    less and the entry at that position is after the target, there is nothing
    to scan and [GetProof] fails with "checkpoint not found".  When it reads
    as 0, [GetProof] does not stop: it reads position 0, the slot before the
    array, and if that is at or before the target, it selects the keys of
    positions 0 and 1. *)
Theorem GetProof_short_array (count : Z) (b : Q) (last : Z) (slot : Hash) :
  getMinimeArraySize m holder islot = Ok count ->
  read count = Ok (b, last, slot) ->
  (- 2 ^ 63 < count <= 1 -> Uint64 target < Uint64 last ->
   GetProof_keys m holder target islot = Err "checkpoint not found"%string)
  /\ (count = 0 -> Uint64 last <= Uint64 target ->
      forall next, read 1 = Ok next ->
      GetProof_keys m holder target islot
      = Ok [arraySlot holder islot 0; arraySlot holder islot 1]).
Proof.
  intros Hs Hr. split.
  - intros Hc Hgt.
    rewrite (GetProof_keys_second_branch m holder islot target count b last slot Hs Hr Hgt).
    rewrite Int_small by lia.
    replace (Z.to_nat (count - 1)) with 0%nat by lia. reflexivity.
  - intros -> Hle [[b2 blk2] slot2] Hn.
    rewrite (GetProof_keys_first_branch m holder islot target
               0 b last slot b2 blk2 slot2 Hs Hr Hle Hn).
    apply getMinimeAtPosition_slot in Hr, Hn. subst. reflexivity.
Qed.

(** X10. A proof that [GetProof] returns was asked for two distinct keys
    at the target block, and carries the state root and the number of the
    header of that block. *)
Theorem GetProof_result (p : erc20.StorageProof) :
  GetProof m holder target islot = Ok p ->
  exists k1 k2 blockData resp,
    GetProof_keys m holder target islot = Ok [k1; k2] /\ k1 <> k2
    /\ erc20.EthCli_BlockByNumber (erc20_ m) (Some target) = Ok blockData
    /\ erc20.RPCCli_eth_getProof (erc20_ m) (erc20.TokenAddr (erc20_ m))
         [k1; k2] (Some target) = Ok resp
    /\ erc20.StateRoot p = erc20.Root blockData
    /\ erc20.Height p = erc20.Number blockData
    /\ erc20.StorageProofs p = erc20.StorageProofs resp.
Proof.
  unfold GetProof.
  destruct (GetProof_keys m holder target islot) as [keys|e] eqn:Hk; [|discriminate].
  cbn [bind]. intros Hp.
  destruct (GetProof_keys_positions keys Hk) as (position & Hrange & ->).
  pose proof (arraySlot_succ_neq holder islot position Hrange) as Hne.
  destruct (erc20_GetProof_inv (erc20_ m) _ (Some target) p Hp)
    as (blockData & resp & Hb & Hg & Hroot & Hheight & Hproofs).
  exists (arraySlot holder islot position), (arraySlot holder islot (position + 1)),
    blockData, resp.
  repeat split; assumption.
Qed.

(** X11. The failures before the selection: a failed array-length read is
    reported as "cannot fetch minime array size", and once the length is
    read, a failure of the token metadata (which every checkpoint read
    fetches first) as "cannot get minime". *)
Theorem GetProof_early_failures :
  (forall e, getMinimeArraySize m holder islot = Err e ->
     GetProof m holder target islot
     = Err ("cannot fetch minime array size: " ++ e)%string)
  /\ (forall count e,
        getMinimeArraySize m holder islot = Ok count ->
        erc20.GetTokenData (erc20_ m) = Err e ->
        GetProof m holder target islot = Err ("cannot get minime: " ++ e)%string).
Proof.
  unfold GetProof, GetProof_keys. split.
  - intros e ->. reflexivity.
  - intros count e -> He. cbn [wrapErr bind].
    unfold getMinimeAtPosition. rewrite He. reflexivity.
Qed.

End GetProofOutcomes.

(** ** minime: what the results depend on *)

Section SameReads.
Context `{Helpers} (m1 m2 : Minime).
Hypothesis Hsame : sameReads m1 m2.

Lemma sameReads_getMinimeAtPosition (holder : Address) (islot position : Z)
    (block : option Z) :
  getMinimeAtPosition m1 holder islot position block
  = getMinimeAtPosition m2 holder islot position block.
Proof.
  destruct Hsame as (Haddr & Hst & t1 & t2 & H1 & H2 & Hd).
  unfold getMinimeAtPosition. rewrite H1, H2. cbn [bind].
  rewrite Haddr, Hst, Hd. reflexivity.
Qed.

Lemma sameReads_getMinimeArraySize (holder : Address) (islot : Z) :
  getMinimeArraySize m1 holder islot = getMinimeArraySize m2 holder islot.
Proof.
  destruct Hsame as (Haddr & Hst & _).
  unfold getMinimeArraySize. rewrite Haddr, Hst. reflexivity.
Qed.

Lemma sameReads_scanCheckpoints (holder : Address) (target islot : Z) (n : nat) :
  scanCheckpoints m1 holder target islot n = scanCheckpoints m2 holder target islot n.
Proof.
  induction n as [|n IH]; [reflexivity|].
  cbn [scanCheckpoints]. rewrite !sameReads_getMinimeAtPosition, IH. reflexivity.
Qed.

Lemma sameReads_discoverLoop (holder : Address) (balance : Q) (k : nat)
    (amount : option Q) :
  discoverLoop m1 holder balance amount k = discoverLoop m2 holder balance amount k.
Proof.
  revert amount. induction k as [|k IH]; intros amount; [reflexivity|].
  cbn [discoverLoop]. rewrite sameReads_getMinimeArraySize.
  destruct (getMinimeArraySize m2 holder _) as [size|e]; [|reflexivity].
  cbn [bind]. destruct (size <=? 0); [apply IH|].
  rewrite sameReads_getMinimeAtPosition.
  destruct (getMinimeAtPosition m2 holder _ size None) as [[[a block] slot]|e];
    [|apply IH].
  destruct (Uint64 block =? 0); [apply IH|].
  destruct (a ?= balance)%Q; try apply IH. reflexivity.
Qed.

(** X12. The keys that [GetProof] selects depend on the node only through
    its storage reads and the token's decimals: two nodes that agree on these
    (whatever their names, symbols, total supplies, balances, block headers
    and proof answers) select the same keys or fail alike.  With the same
    current balance, [DiscoverSlot] returns the same on both. *)
Theorem sameReads_same_selection (holder : Address) :
  (forall target islot,
     GetProof_keys m1 holder target islot = GetProof_keys m2 holder target islot)
  /\ (erc20.Balance (erc20_ m1) holder = erc20.Balance (erc20_ m2) holder ->
      DiscoverSlot m1 holder = DiscoverSlot m2 holder).
Proof.
  split.
  - intros target islot. unfold GetProof_keys.
    rewrite sameReads_getMinimeArraySize.
    destruct (getMinimeArraySize m2 holder islot) as [count|e]; [|reflexivity].
    cbn [wrapErr bind].
    rewrite !sameReads_getMinimeAtPosition, sameReads_scanCheckpoints. reflexivity.
  - intros Hb. unfold DiscoverSlot. rewrite Hb.
    destruct (erc20.Balance (erc20_ m2) holder); [|reflexivity].
    rewrite sameReads_discoverLoop. reflexivity.
Qed.

End SameReads.

(** ** minime: from the discovered slot to the proof *)

Section DiscoverThenProve.
Context `{Helpers} (m : Minime).
Variable holder : Address.

Local Notation "'storageAt' key block" :=
  (erc20.EthCli_StorageAt (erc20_ m) (erc20.TokenAddr (erc20_ m)) key block)
  (at level 10, key at level 9, block at level 9).

(** X13. A candidate is selected only if the low 64 bits of its length word
    read as a count from 1 to [2 ^ 63 - 1]; the entry that was compared with
    the balance is the one at that position. *)
Theorem DiscoverSlot_length_word (i : Z) (a : option Q) :
  DiscoverSlot m holder = (i, a, None) ->
  exists w amount block slot,
    lengthWord m holder i = Ok w
    /\ 0 < SetBytes w mod 2 ^ 64 < 2 ^ 63
    /\ getMinimeArraySize m holder i = Ok (SetBytes w mod 2 ^ 64)
    /\ getMinimeAtPosition m holder i (SetBytes w mod 2 ^ 64) None
       = Ok (amount, block, slot)
    /\ a = Some amount.
Proof.
  intros Hsel.
  destruct (DiscoverSlot_selected m holder i a Hsel) as (balance & _ & Hl & Hne).
  apply discoverLoop_sound in Hl as [?|[_ (a' & -> & Hq)]]; [contradiction|].
  destruct Hq as (size & block & slot & Hs & Hpos & Hr & _ & _).
  destruct (getMinimeArraySize_inv m holder i size Hs) as (w & Hw & Hsize).
  pose proof (Z.mod_pos_bound (SetBytes w) (2 ^ 64) ltac:(lia)) as Hm.
  assert (SetBytes w mod 2 ^ 64 < 2 ^ 63) as Hlt.
  { destruct (Z.lt_ge_cases (SetBytes w mod 2 ^ 64) (2 ^ 63)) as [|Hge]; [assumption|].
    exfalso. unfold Int in Hsize.
    replace (SetBytes w mod 2 ^ 64 + 2 ^ 63)
      with (SetBytes w mod 2 ^ 64 - 2 ^ 63 + 1 * 2 ^ 64) in Hsize by lia.
    rewrite Z.mod_add, Z.mod_small in Hsize by lia. lia. }
  rewrite Int_small in Hsize by lia. subst size.
  exists w, a', block, slot. repeat split; auto; lia.
Qed.

(** X14. From discovery to proof: the array of a discovered slot has a top
    entry at position [count]; for every target block at or after the block
    number of that entry at which the node still reads the same word there
    and can read the next word, [GetProof] selects the keys of positions
    [count] and [count + 1]. *)
Theorem DiscoverSlot_then_GetProof (i : Z) (a : option Q) :
  DiscoverSlot m holder = (i, a, None) ->
  exists count amount block slot,
    getMinimeArraySize m holder i = Ok count /\ 0 < count
    /\ getMinimeAtPosition m holder i count None = Ok (amount, block, slot)
    /\ a = Some amount
    /\ forall target next,
         storageAt (arraySlot holder i count) (Some target)
         = storageAt (arraySlot holder i count) None ->
         Uint64 block <= Uint64 target ->
         storageAt (arraySlot holder i (count + 1)) (Some target) = Ok next ->
         GetProof_keys m holder target i
         = Ok [arraySlot holder i count; arraySlot holder i (count + 1)].
Proof.
  intros Hsel.
  destruct (DiscoverSlot_selected m holder i a Hsel) as (balance & _ & Hl & Hne).
  apply discoverLoop_sound in Hl as [?|[_ (a' & -> & Hq)]]; [contradiction|].
  destruct Hq as (count & block & slot & Hs & Hpos & Hr & _ & _).
  exists count, a', block, slot.
  split; [exact Hs|]. split; [exact Hpos|]. split; [exact Hr|].
  split; [reflexivity|].
  intros target next Hsameword Hle Hnext.
  pose proof (getMinimeAtPosition_slot m _ _ _ _ _ _ _ Hr) as ->.
  assert (getMinimeAtPosition m holder i count (Some target)
          = Ok (a', block, arraySlot holder i count)) as Hrt.
  { unfold getMinimeAtPosition in Hr |- *.
    destruct (erc20.GetTokenData (erc20_ m)) as [token|e]; [|discriminate].
    cbn [bind] in Hr |- *. rewrite Hsameword. exact Hr. }
  assert (exists r, getMinimeAtPosition m holder i (count + 1) (Some target) = Ok r)
    as [[[b2 blk2] slot2] Hn].
  { unfold getMinimeAtPosition in Hr |- *.
    destruct (erc20.GetTokenData (erc20_ m)) as [token|e]; [|discriminate].
    cbn [bind]. rewrite Hnext. cbn [bind].
    destruct (ParseMinimeValue next (erc20.Decimals token)) as [[b2 ib2] blk2].
    eexists. reflexivity. }
  rewrite (GetProof_keys_first_branch m holder i target count a' block _
             b2 blk2 slot2 Hs Hrt Hle Hn).
  apply getMinimeAtPosition_slot in Hn. subst. reflexivity.
Qed.

End DiscoverThenProve.

(** ** The further properties on concrete nodes *)

Section FurtherCases.
Import Fixture Nodes Variants.

Lemma DiscoverSlot_outcomes_witness :
  (@None error = None /\ 0 <= 3 < maxIterationsForDiscover
   /\ exists amount, Some (8 # 1) = Some amount)
  \/ (Some (8 # 1) = None /\ 3 = -1 /\
      (None = Some ErrSlotNotFound
       \/ exists e, None = Some e
                    /\ erc20.Balance (erc20_ fourCheckpoints) holder0 = Err e))
  \/ (Some (8 # 1) = None /\ 3 = 0 /\
      exists e c, None = Some e /\ 0 <= c < maxIterationsForDiscover
                  /\ getMinimeArraySize fourCheckpoints holder0 c = Err e).
Proof.
  assert (DiscoverSlot fourCheckpoints holder0 = (3, Some (8 # 1), None)) as Hd
    by (vm_compute; reflexivity).
  exact (DiscoverSlot_outcomes fourCheckpoints holder0 3 (Some (8 # 1)) None Hd).
Defined.

Lemma DiscoverSlot_returns_smallest_witness :
  exists balance amount,
    erc20.Balance (erc20_ fourCheckpoints) holder0 = Ok balance
    /\ Some (8 # 1) = Some amount
    /\ qualifies fourCheckpoints holder0 balance 3 amount
    /\ (amount == balance)%Q
    /\ forall j, 0 <= j < 3 ->
         lengthReadable fourCheckpoints holder0 j
         /\ ~ (exists a', qualifies fourCheckpoints holder0 balance j a').
Proof.
  assert (DiscoverSlot fourCheckpoints holder0 = (3, Some (8 # 1), None)) as Hd
    by (vm_compute; reflexivity).
  exact (DiscoverSlot_returns_smallest fourCheckpoints holder0 3 (Some (8 # 1)) Hd).
Defined.

Lemma DiscoverSlot_metadata_failure_witness :
  getMinimeAtPosition supplyFails holder0 3 1 None
  = Err "unable to get token supply data: execution reverted"%string
  /\ DiscoverSlot supplyFails holder0 = (-1, None, Some ErrSlotNotFound).
Proof.
  assert (erc20.GetTokenData (erc20_ supplyFails)
          = Err "unable to get token supply data: execution reverted"%string) as He
    by (vm_compute; reflexivity).
  assert (erc20.Balance (erc20_ supplyFails) holder0 = Ok (8 # 1)) as Hb
    by (vm_compute; reflexivity).
  assert (forall j, 0 <= j < maxIterationsForDiscover ->
            lengthReadable supplyFails holder0 j) as Hlen.
  { apply (below_cases _ 20). simpl (map _ _).
    repeat (apply Forall_cons; [eexists; vm_compute; reflexivity|]).
    apply Forall_nil. }
  destruct (DiscoverSlot_metadata_failure supplyFails holder0 _ He)
    as (Hread & _ & Hnone).
  split; [apply Hread|exact (Hnone _ Hb Hlen)].
Defined.

Lemma arraySlot_entry_witness :
  arraySlot holder0 3 4
  = be_bytes 32 (SetBytes (HashFromPosition (GetMapSlot holder0 3)) + (4 - 1))
  /\ List.length (arraySlot holder0 3 4) = 32%nat
  /\ SetBytes (arraySlot holder0 3 4)
     = (SetBytes (HashFromPosition (GetMapSlot holder0 3)) + (4 - 1)) mod 2 ^ 256.
Proof. exact (arraySlot_entry holder0 3 4 ltac:(lia)). Defined.

Lemma GetProof_keys_selected_witness :
  exists count b last slot,
    getMinimeArraySize fourCheckpoints holder0 3 = Ok count
    /\ getMinimeAtPosition fourCheckpoints holder0 3 count (Some 105) = Ok (b, last, slot)
    /\ ((Uint64 last <= Uint64 105
         /\ [entryKey 3 4; entryKey 3 5]
            = [arraySlot holder0 3 count; arraySlot holder0 3 (count + 1)]
         /\ exists next,
              getMinimeAtPosition fourCheckpoints holder0 3 (count + 1) (Some 105)
              = Ok next)
        \/ (Uint64 105 < Uint64 last
            /\ exists i,
                 1 <= i <= Int (count - 1)
                 /\ [entryKey 3 4; entryKey 3 5]
                    = [arraySlot holder0 3 (i - 1); arraySlot holder0 3 i]
                 /\ (exists b0 cb s0,
                       getMinimeAtPosition fourCheckpoints holder0 3 (i - 1) (Some 105)
                       = Ok (b0, cb, s0) /\ Uint64 105 <= Uint64 cb)
                 /\ (exists b1 blk1 s1,
                       getMinimeAtPosition fourCheckpoints holder0 3 i (Some 105)
                       = Ok (b1, blk1, s1) /\ ~ (0 < b1)%Q /\ Uint64 blk1 = 0)
                 /\ forall j, i < j <= Int (count - 1) ->
                      entryBelow fourCheckpoints holder0 3 105 (j - 1))).
Proof.
  assert (GetProof_keys fourCheckpoints holder0 105 3
          = Ok [entryKey 3 4; entryKey 3 5]) as Hk by (vm_compute; reflexivity).
  exact (GetProof_keys_selected fourCheckpoints holder0 3 105 _ Hk).
Defined.

Lemma GetProof_keys_two_distinct_witness :
  exists position,
    [entryKey 3 1; entryKey 3 2]
    = [arraySlot holder0 3 position; arraySlot holder0 3 (position + 1)]
    /\ arraySlot holder0 3 position <> arraySlot holder0 3 (position + 1).
Proof.
  assert (GetProof_keys oneCheckpoint holder0 105 3
          = Ok [entryKey 3 1; entryKey 3 2]) as Hk by (vm_compute; reflexivity).
  exact (GetProof_keys_two_distinct oneCheckpoint holder0 3 105 _ Hk).
Defined.

Lemma GetProof_short_array_witness :
  GetProof_keys oneLateCheckpoint holder0 105 3 = Err "checkpoint not found"%string
  /\ GetProof_keys noArray holder0 105 3 = Ok [arraySlot holder0 3 0; arraySlot holder0 3 1].
Proof.
  split.
  - assert (getMinimeArraySize oneLateCheckpoint holder0 3 = Ok 1) as Hs
      by (vm_compute; reflexivity).
    assert (getMinimeAtPosition oneLateCheckpoint holder0 3 1 (Some 105)
            = Ok (8 # 1, 200, entryKey 3 1)) as Hr by (vm_compute; reflexivity).
    exact (proj1 (GetProof_short_array oneLateCheckpoint holder0 3 105 1 _ 200 _ Hs Hr)
             ltac:(lia) ltac:(reflexivity)).
  - assert (getMinimeArraySize noArray holder0 3 = Ok 0) as Hs
      by (vm_compute; reflexivity).
    assert (getMinimeAtPosition noArray holder0 3 0 (Some 105)
            = Ok (0 # 1, 0, entryKey 3 0)) as Hr by (vm_compute; reflexivity).
    assert (getMinimeAtPosition noArray holder0 3 1 (Some 105)
            = Ok (0 # 1, 0, entryKey 3 1)) as Hn by (vm_compute; reflexivity).
    exact (proj2 (GetProof_short_array noArray holder0 3 105 0 _ 0 _ Hs Hr)
             eq_refl ltac:(vm_compute; discriminate) _ Hn).
Defined.

Lemma GetProof_result_witness :
  exists p k1 k2 blockData,
    GetProof proofWithOwnRoot holder0 105 3 = Ok p
    /\ GetProof_keys proofWithOwnRoot holder0 105 3 = Ok [k1; k2] /\ k1 <> k2
    /\ erc20.EthCli_BlockByNumber (erc20_ proofWithOwnRoot) (Some 105) = Ok blockData
    /\ erc20.StateRoot p = erc20.Root blockData
    /\ erc20.Height p = erc20.Number blockData.
Proof.
  destruct (GetProof proofWithOwnRoot holder0 105 3) as [p|e] eqn:Hp;
    [|vm_compute in Hp; discriminate].
  destruct (GetProof_result proofWithOwnRoot holder0 3 105 p Hp)
    as (k1 & k2 & blockData & resp & Hk & Hne & Hb & _ & Hroot & Hheight & _).
  exists p, k1, k2, blockData.
  exact (conj eq_refl (conj Hk (conj Hne (conj Hb (conj Hroot Hheight))))).
Defined.

Lemma GetProof_early_failures_witness :
  GetProof lengthUnreadable holder0 105 0
  = Err "cannot fetch minime array size: connection reset"%string
  /\ GetProof supplyFails holder0 105 3
     = Err "cannot get minime: unable to get token supply data: execution reverted"%string.
Proof.
  split.
  - assert (getMinimeArraySize lengthUnreadable holder0 0
            = Err "connection reset"%string) as Hs by (vm_compute; reflexivity).
    exact (proj1 (GetProof_early_failures lengthUnreadable holder0 0 105) _ Hs).
  - assert (getMinimeArraySize supplyFails holder0 3 = Ok 1) as Hs
      by (vm_compute; reflexivity).
    assert (erc20.GetTokenData (erc20_ supplyFails)
            = Err "unable to get token supply data: execution reverted"%string) as He
      by (vm_compute; reflexivity).
    exact (proj2 (GetProof_early_failures supplyFails holder0 3 105) _ _ Hs He).
Defined.

Lemma sameReads_same_selection_witness :
  GetProof_keys fourCheckpoints holder0 105 3
  = GetProof_keys fourCheckpointsNameless holder0 105 3
  /\ DiscoverSlot fourCheckpoints holder0 = DiscoverSlot fourCheckpointsNameless holder0.
Proof.
  assert (sameReads fourCheckpoints fourCheckpointsNameless) as Hsame.
  { split; [reflexivity|]. split; [intros; reflexivity|].
    eexists. eexists. split; [vm_compute; reflexivity|].
    split; [vm_compute; reflexivity|]. reflexivity. }
  destruct (sameReads_same_selection fourCheckpoints fourCheckpointsNameless
              Hsame holder0) as [Hkeys Hslot].
  split; [apply Hkeys|apply Hslot; reflexivity].
Defined.

Lemma DiscoverSlot_length_word_witness :
  exists w amount block slot,
    lengthWord fourCheckpoints holder0 3 = Ok w
    /\ 0 < SetBytes w mod 2 ^ 64 < 2 ^ 63
    /\ getMinimeArraySize fourCheckpoints holder0 3 = Ok (SetBytes w mod 2 ^ 64)
    /\ getMinimeAtPosition fourCheckpoints holder0 3 (SetBytes w mod 2 ^ 64) None
       = Ok (amount, block, slot)
    /\ Some (8 # 1) = Some amount.
Proof.
  assert (DiscoverSlot fourCheckpoints holder0 = (3, Some (8 # 1), None)) as Hd
    by (vm_compute; reflexivity).
  exact (DiscoverSlot_length_word fourCheckpoints holder0 3 (Some (8 # 1)) Hd).
Defined.

Lemma DiscoverSlot_then_GetProof_witness :
  GetProof_keys fourCheckpoints holder0 105 3
  = Ok [arraySlot holder0 3 4; arraySlot holder0 3 (4 + 1)].
Proof.
  assert (DiscoverSlot fourCheckpoints holder0 = (3, Some (8 # 1), None)) as Hd
    by (vm_compute; reflexivity).
  assert (getMinimeArraySize fourCheckpoints holder0 3 = Ok 4) as Hs
    by (vm_compute; reflexivity).
  assert (getMinimeAtPosition fourCheckpoints holder0 3 4 None
          = Ok (8 # 1, 100, entryKey 3 4)) as Hr by (vm_compute; reflexivity).
  destruct (DiscoverSlot_then_GetProof fourCheckpoints holder0 3 (Some (8 # 1)) Hd)
    as (count & amount & block & slot & Hs' & _ & Hr' & _ & Hproof).
  assert (count = 4) as -> by congruence.
  assert (block = 100) as -> by congruence.
  apply (Hproof 105 zeroWord).
  - vm_compute. reflexivity.
  - vm_compute. discriminate.
  - vm_compute. reflexivity.
Defined.

End FurtherCases.
